(** * basic_operations.py: a shallow embedding

    The module [01_basics/basic_operations.py] is a thin layer over the
    [opensearchpy] client: a memoised client factory, an index creator, a
    bulk loader and a query runner.  The embedding below follows the module
    function by function.  Python values that the module inspects are
    modelled as trees; the dictionaries handed to the bulk loader live in an
    object store so that aliasing and (non-)mutation can be stated; the calls
    made into the client library are recorded in a log and answered by an
    abstract service. *)

From Stdlib Require Import ZArith Ascii String List.
From stdpp Require Import base option list strings gmap fin_maps pretty.

Open Scope string_scope.
Open Scope list_scope.
Set Warnings "-register-all".

(** ** Python values *)

Module Py.

(** The values the module looks into: JSON-like data.  A Python [dict]
    keeps its keys in insertion order, hence the association list. *)
Inductive value : Type :=
  | VNone
  | VBool (b : bool)
  | VInt (z : Z)
  | VStr (s : string)
  | VList (l : list value)
  | VDict (d : list (string * value)).

Abbreviation dict := (list (string * value)).

(** Exceptions that can escape from the module.  [LibraryError] stands for
    whatever the client library raises on behalf of the service (transport
    errors, request errors, bulk errors); [DanglingReference] cannot arise
    in Python, where every reference designates a live object. *)
Inductive exn : Type :=
  | ValueError
  | AttributeError
  | TypeError
  | LibraryError (kind : string)
  | DanglingReference.

Inductive result (A : Type) : Type :=
  | Ok (a : A)
  | Raise (e : exn).
Arguments Ok {A} a.
Arguments Raise {A} e.

(** [bool(v)] *)
Definition truthy (v : value) : bool :=
  match v with
  | VNone => false
  | VBool b => b
  | VInt z => negb (z =? 0)%Z
  | VStr s => negb (String.eqb s "")
  | VList l => match l with [] => false | _ => true end
  | VDict d => match d with [] => false | _ => true end
  end.

(** [a or b] on values *)
Definition py_or (a b : value) : value := if truthy a then a else b.

(** [k in d], [d[k]] as an option, [d[k] = v], [d.update(e)] *)
Fixpoint dict_get (d : dict) (k : string) : option value :=
  match d with
  | [] => None
  | (k', v) :: d' => if String.eqb k' k then Some v else dict_get d' k
  end.

Definition dict_mem (d : dict) (k : string) : bool :=
  match dict_get d k with Some _ => true | None => false end.

Fixpoint dict_set (k : string) (v : value) (d : dict) : dict :=
  match d with
  | [] => [(k, v)]
  | (k', v') :: d' =>
      if String.eqb k' k then (k', v) :: d' else (k', v') :: dict_set k v d'
  end.

Definition dict_update (base extra : dict) : dict :=
  fold_left (fun acc kv => dict_set (fst kv) (snd kv) acc) extra base.

(** A dictionary display [{k1: v1, ..., **d}]: items are stored left to
    right, later items win and keep the position of the first occurrence. *)
Definition dict_display (items : dict) (unpacked : dict) : dict :=
  dict_update (dict_update [] items) unpacked.

(** [d.get(k)] and [d.get(k, default)] on a dictionary *)
Definition dict_get_or (d : dict) (k : string) (default : value) : value :=
  match dict_get d k with Some v => v | None => default end.

(** [v.get(k, default)] on an arbitrary value: only dictionaries have the
    method. *)
Definition py_get (v : value) (k : string) (default : value) : result value :=
  match v with
  | VDict d => Ok (dict_get_or d k default)
  | _ => Raise AttributeError
  end.

(** [for x in v]: the items a comprehension over [v] visits. *)
Definition py_iter (v : value) : result (list value) :=
  match v with
  | VList l => Ok l
  | VDict d => Ok (map (fun kv => VStr (fst kv)) d)
  | VStr s =>
      Ok (map (fun c => VStr (String c EmptyString)) (list_ascii_of_string s))
  | _ => Raise TypeError
  end.

(** Keys of a Python dictionary are unique. *)
Fixpoint distinct_keys (d : dict) : bool :=
  match d with
  | [] => true
  | (k, _) :: d' => negb (dict_mem d' k) && distinct_keys d'
  end.

Definition dict_wf (d : dict) : Prop := distinct_keys d = true.

(** *** [int(s)] on an ASCII string

    Surrounding ASCII white space is dropped, one sign is allowed, then
    decimal digits follow, possibly grouped by single underscores; a
    literal of more than 4300 digits is refused, as under the default
    limit of the interpreter.  This is [int] on ASCII strings only: it is
    the instance with which the operations are run on examples, and the
    theorems below do not depend on it (see [Interpreter]). *)
Definition is_space (c : ascii) : bool :=
  let n := nat_of_ascii c in
  ((n =? 32) || ((9 <=? n) && (n <=? 13)))%nat.

Definition is_digit (c : ascii) : bool :=
  let n := nat_of_ascii c in ((48 <=? n) && (n <=? 57))%nat.

Definition digit_val (c : ascii) : Z := Z.of_nat (nat_of_ascii c - 48).

Fixpoint lstrip (cs : list ascii) : list ascii :=
  match cs with
  | c :: cs' => if is_space c then lstrip cs' else cs
  | [] => []
  end.

Definition strip (cs : list ascii) : list ascii :=
  rev (lstrip (rev (lstrip cs))).

Fixpoint parse_digits (cs : list ascii) (acc : Z) (after_digit : bool)
  : option Z :=
  match cs with
  | [] => if after_digit then Some acc else None
  | c :: cs' =>
      if is_digit c then parse_digits cs' (10 * acc + digit_val c)%Z true
      else if Ascii.eqb c "_"%char
           then (if after_digit then parse_digits cs' acc false else None)
           else None
  end.

Definition max_str_digits : nat := 4300.

Definition int_of_str (s : string) : result Z :=
  let body := strip (list_ascii_of_string s) in
  let parsed :=
    match body with
    | c :: rest =>
        if Ascii.eqb c "-"%char then Z.opp <$> parse_digits rest 0%Z false
        else if Ascii.eqb c "+"%char then parse_digits rest 0%Z false
        else parse_digits body 0%Z false
    | [] => None
    end in
  match parsed with
  | Some z =>
      if (max_str_digits <? length (List.filter is_digit body))%nat
      then Raise ValueError
      else Ok z
  | None => Raise ValueError
  end.

End Py.
Export Py.

(** ** The builtin [int]

    What [int] makes of a string is decided by the interpreter and not by
    the module: its tables of digits and white space and its limit on the
    number of digits vary with the version and the settings of the
    process.  It is therefore a parameter of the embedding. *)
Class Interpreter : Type := {
  py_int : string -> result Z
}.

(** The instance used to run the operations on examples. *)
#[global] Instance ascii_interpreter : Interpreter := {
  py_int := int_of_str
}.

(** ** The client object and the calls made through it *)

Inductive connection : Type :=
  | Urllib3HttpConnection
  | RequestsHttpConnection.

(** What [OpenSearch(hosts=[{"host": h, "port": p}], http_auth=..., ...)]
    is given.  [client_id] is the identity of the Python object: two
    handles are the same instance exactly when their identities agree. *)
Record OpenSearch : Type := mkOpenSearch {
  client_id : nat;
  host : option string;
  port : Z;
  http_auth : option string * option string;
  use_ssl : bool;
  verify_certs : bool;
  connection_class : connection;
  timeout : Z
}.

(** What can be passed for the [client] parameter: Python does not enforce
    the annotation [Optional[OpenSearch]]. *)
Inductive pyobj : Type :=
  | Val (v : value)
  | Client (c : OpenSearch).

(** [OpenSearch] defines neither [__bool__] nor [__len__]: an instance is
    true. *)
Definition obj_truthy (o : pyobj) : bool :=
  match o with
  | Val v => truthy v
  | Client _ => true
  end.

(** Calls into the client library, as the module issues them. *)
Inductive call : Type :=
  | IndicesExists (c : OpenSearch) (index : string)
  | IndicesCreate (c : OpenSearch) (index : string) (body : value)
  | HelpersBulk (c : OpenSearch) (actions : list dict) (refresh : bool)
  | Search (c : OpenSearch) (index : string) (body : value).

Definition is_create (k : call) : bool :=
  match k with IndicesCreate _ _ _ => true | _ => false end.

(** The search service behind the client, seen through the four requests
    the module makes.  Existence checks and searches read the state of the
    service; creating an index and writing a batch may change it. *)
Class Service (S : Type) : Type := {
  svc_exists : string -> S -> result bool;
  svc_create : string -> value -> S -> result value * S;
  svc_bulk : list dict -> bool -> S -> result value * S;
  svc_search : string -> value -> S -> result value
}.

(** A service on which a successful create makes the index exist. *)
Definition create_then_exists {S : Type} `{Service S} : Prop :=
  forall index body s r s',
    svc_create index body s = (Ok r, s') -> svc_exists index s' = Ok true.

(** ** The process state *)

Record World (S : Type) : Type := mkWorld {
  environ : gmap string string;   (* os.environ *)
  lru_slot : option OpenSearch;   (* the cache of lru_cache(maxsize=1) *)
  next_id : nat;                  (* client objects constructed so far *)
  heap : gmap nat dict;           (* dict objects: documents and actions *)
  stdout : list string;           (* lines printed, oldest first *)
  calls : list call;              (* library calls made, oldest first *)
  cluster : S                     (* the state of the service *)
}.
Arguments mkWorld {S}.
Arguments environ {S}.
Arguments lru_slot {S}.
Arguments next_id {S}.
Arguments heap {S}.
Arguments stdout {S}.
Arguments calls {S}.
Arguments cluster {S}.

(** Computations: a state monad over the world in which an exception ends
    the computation and keeps the world reached so far. *)
Definition M (S A : Type) : Type := World S -> result A * World S.

Definition ret {S A} (a : A) : M S A := fun w => (Ok a, w).

Definition raise {S A} (e : exn) : M S A := fun w => (Raise e, w).

Definition bind {S A B} (m : M S A) (f : A -> M S B) : M S B :=
  fun w =>
    match m w with
    | (Ok a, w') => f a w'
    | (Raise e, w') => (Raise e, w')
    end.

Definition lift {S A} (r : result A) : M S A := fun w => (r, w).

Declare Scope py_scope.
Delimit Scope py_scope with py.
Notation "x <- m ;; k" := (bind m (fun x => k))
  (at level 100, m at next level, right associativity) : py_scope.
Notation "m ;;; k" := (bind m (fun _ => k))
  (at level 100, right associativity) : py_scope.
Open Scope py_scope.

(** A list comprehension whose element expression may raise. *)
Fixpoint comprehension {A B} (f : A -> result B) (l : list A)
  : result (list B) :=
  match l with
  | [] => Ok []
  | x :: l' =>
      match f x with
      | Raise e => Raise e
      | Ok y =>
          match comprehension f l' with
          | Raise e => Raise e
          | Ok ys => Ok (y :: ys)
          end
      end
  end.

(** Lines 83-84 of the module: from the response of a search to the list
    the query runner returns. *)
Definition hit_sources (resp : value) : result value :=
  match py_get resp "hits" (VDict []) with
  | Raise e => Raise e
  | Ok outer =>
      match py_get outer "hits" (VList []) with
      | Raise e => Raise e
      | Ok hits =>
          match py_iter hits with
          | Raise e => Raise e
          | Ok items =>
              match comprehension
                      (fun hit => py_get hit "_source" (VDict [])) items with
              | Raise e => Raise e
              | Ok sources => Ok (VList sources)
              end
          end
      end
  end.

(** The shape of a search response: a dictionary whose ["hits"] is a
    dictionary whose ["hits"] is a list of dictionaries, the hits. *)
Definition is_dict (v : value) : bool :=
  match v with VDict _ => true | _ => false end.

Definition response_hits (resp : value) : option (list value) :=
  match resp with
  | VDict top =>
      match dict_get top "hits" with
      | Some (VDict inner) =>
          match dict_get inner "hits" with
          | Some (VList hits) =>
              if forallb is_dict hits then Some hits else None
          | _ => None
          end
      | _ => None
      end
  | _ => None
  end.

(** The stored fields of a hit: what it holds under ["_source"]. *)
Definition stored_fields (hit : value) : option value :=
  match hit with
  | VDict h => dict_get h "_source"
  | _ => None
  end.

Section Operations.
Context {S : Type} `{Service S} `{Interpreter}.

(** *** Primitive effects *)

Definition getenv (k : string) : M S (option string) :=
  fun w => (Ok (environ w !! k), w).

Definition emit (line : string) (w : World S) : World S :=
  mkWorld (environ w) (lru_slot w) (next_id w) (heap w)
          (stdout w ++ [line]) (calls w) (cluster w).

Definition print (line : string) : M S unit :=
  fun w => (Ok tt, emit line w).

Definition record (k : call) (w : World S) : World S :=
  mkWorld (environ w) (lru_slot w) (next_id w) (heap w)
          (stdout w) (calls w ++ [k]) (cluster w).

Definition set_cluster (s : S) (w : World S) : World S :=
  mkWorld (environ w) (lru_slot w) (next_id w) (heap w)
          (stdout w) (calls w) s.

Definition set_environ (e : gmap string string) (w : World S) : World S :=
  mkWorld e (lru_slot w) (next_id w) (heap w)
          (stdout w) (calls w) (cluster w).

Definition set_heap (h : gmap nat dict) (w : World S) : World S :=
  mkWorld (environ w) (lru_slot w) (next_id w) h
          (stdout w) (calls w) (cluster w).

(** A new dict object: its address is not in use. *)
Definition alloc (d : dict) : M S nat :=
  fun w =>
    let l := fresh (dom (heap w)) in
    (Ok l, set_heap (<[l := d]> (heap w)) w).

Definition load (l : nat) : M S dict :=
  fun w =>
    match heap w !! l with
    | Some d => (Ok d, w)
    | None => (Raise DanglingReference, w)
    end.

(** The constructor of the client, [OpenSearch(hosts=[{"host": h, "port":
    p}], ...)], is code of the client library.  It stores its arguments
    and opens no connection; on its way it looks for a colon in the host,
    which raises a [TypeError] when the host is [None].  Any string is
    taken as it is. *)
Definition new_OpenSearch (h : option string) (p : Z)
    (auth : option string * option string) : M S OpenSearch :=
  match h with
  | None => raise TypeError
  | Some _ =>
      fun w =>
        (Ok (mkOpenSearch (next_id w) h p auth true true
                          RequestsHttpConnection 30),
         mkWorld (environ w) (lru_slot w) (Datatypes.S (next_id w)) (heap w)
                 (stdout w) (calls w) (cluster w))
  end.

(** [client.indices] and the like exist on a client only. *)
Definition as_client (o : pyobj) : M S OpenSearch :=
  match o with
  | Client c => ret c
  | Val _ => raise AttributeError
  end.

Definition indices_exists (c : OpenSearch) (index : string) : M S bool :=
  fun w => (svc_exists index (cluster w), record (IndicesExists c index) w).

Definition indices_create (c : OpenSearch) (index : string) (body : value)
  : M S value :=
  fun w =>
    let (r, s') := svc_create index body (cluster w) in
    (r, set_cluster s' (record (IndicesCreate c index body) w)).

Definition client_search (c : OpenSearch) (index : string) (body : value)
  : M S value :=
  fun w => (svc_search index body (cluster w), record (Search c index body) w).

Fixpoint load_all (ls : list nat) : M S (list dict) :=
  match ls with
  | [] => ret []
  | l :: ls' => d <- load l ;; ds <- load_all ls' ;; ret (d :: ds)
  end.

(** [helpers.bulk(client, actions, refresh=...)]: the helper reads the
    action objects and leaves them as they are. *)
Definition helpers_bulk (client : pyobj) (actions : list nat)
    (refresh : bool) : M S value :=
  c <- as_client client ;;
  acts <- load_all actions ;;
  fun w =>
    let (r, s') := svc_bulk acts refresh (cluster w) in
    (r, set_cluster s' (record (HelpersBulk c acts refresh) w)).

(** *** [get_os_client] *)

(** [int(os.getenv("OPENSEARCH_PORT", 443))] once the variable is read *)
Definition port_of (port_var : option string) : result Z :=
  match port_var with
  | Some s => py_int s
  | None => Ok 443%Z
  end.

Definition get_os_client_body : M S OpenSearch :=
  host <- getenv "OPENSEARCH_HOST" ;;
  port_var <- getenv "OPENSEARCH_PORT" ;;
  port <- lift (port_of port_var) ;;
  user <- getenv "OPENSEARCH_USER" ;;
  password <- getenv "OPENSEARCH_PASS" ;;
  let auth := (user, password) in
  new_OpenSearch host port auth.

(** [@lru_cache(maxsize=1)] on a function without parameters: a result is
    kept once the body has returned; an exception leaves the cache alone. *)
Definition lru_cache (body : M S OpenSearch) : M S OpenSearch :=
  fun w =>
    match lru_slot w with
    | Some c => (Ok c, w)
    | None =>
        match body w with
        | (Ok c, w') =>
            (Ok c,
             mkWorld (environ w') (Some c) (next_id w') (heap w')
                     (stdout w') (calls w') (cluster w'))
        | (Raise e, w') => (Raise e, w')
        end
    end.

Definition get_os_client : M S OpenSearch := lru_cache get_os_client_body.

(** [client or get_os_client()], with [client] defaulting to [None] *)
Definition supplied (client : option pyobj) : pyobj :=
  match client with Some o => o | None => Val VNone end.

Definition client_or_default (client : option pyobj) : M S pyobj :=
  let given := supplied client in
  if obj_truthy given then ret given
  else c <- get_os_client ;; ret (Client c).

(** *** [create_index_if_not_exists] *)

Definition create_index_if_not_exists (index_name : string) (mapping : value)
    (client : option pyobj) : M S value :=
  client <- client_or_default client ;;
  c <- as_client client ;;
  present <- indices_exists c index_name ;;
  if negb present then
    (indices_create c index_name mapping ;;;
     print ("Created index '" ++ index_name ++ "'") ;;;
     ret VNone)
  else
    (print ("Index '" ++ index_name ++ "' already exists.") ;;;
     ret VNone).

(** *** [bulk_index_metadata] *)

(** [doc.get("contract_id") or doc.get("id")] *)
Definition derived_id (doc : dict) : value :=
  py_or (dict_get_or doc "contract_id" VNone) (dict_get_or doc "id" VNone).

Definition action_of (index_name : string) (doc : dict) : dict :=
  dict_display
    [("_op_type", VStr "index");
     ("_index", VStr index_name);
     ("_id", derived_id doc)]
    doc.

(** The comprehension: each action is a new dict object. *)
Fixpoint build_actions (index_name : string) (docs : list nat)
  : M S (list nat) :=
  match docs with
  | [] => ret []
  | doc :: docs' =>
      d <- load doc ;;
      a <- alloc (action_of index_name d) ;;
      rest <- build_actions index_name docs' ;;
      ret (a :: rest)
  end.

Definition bulk_index_metadata (index_name : string) (docs : list nat)
    (client : option pyobj) : M S value :=
  client <- client_or_default client ;;
  actions <- build_actions index_name docs ;;
  helpers_bulk client actions true ;;;
  print ("Indexed " ++ pretty (length actions) ++ " documents into '"
         ++ index_name ++ "'") ;;;
  ret VNone.

(** *** [query_index] *)

Definition search_body (size query_body : value) : value :=
  VDict (dict_display [("size", size); ("query", query_body)] []).

Definition query_index (index_name : string) (query_body : value)
    (size : option value) (client : option pyobj) : M S value :=
  let size := match size with Some n => n | None => VInt 10 end in
  client <- client_or_default client ;;
  let body := search_body size query_body in
  c <- as_client client ;;
  resp <- client_search c index_name body ;;
  lift (hit_sources resp).

(** An outcome is an exception. *)
Definition raises {A} (m : M S A) (w : World S) : Prop :=
  exists e, fst (m w) = Raise e.

(** The references [docs] designate the dictionaries [ds] in [w]. *)
Definition designate (w : World S) (docs : list nat) (ds : list dict)
  : Prop :=
  Forall2 (fun l d => heap w !! l = Some d) docs ds.

(** A computation only adds objects to the store: whatever an address
    designates before, it designates after. *)
Definition heap_extends {A} (m : M S A) : Prop :=
  forall w, heap w ⊆ heap (snd (m w)).

End Operations.

(** ** A small in-memory service

    Used to run the operations on concrete inputs.  It keeps the created
    indices with their mappings and the documents written to each index; a
    search returns every document of the index as a hit, in write order. *)

Module Mem.

Record cluster_state : Type := mkCluster {
  indices : gmap string value;
  documents : list (string * dict)
}.

Definition control_key (k : string) : bool :=
  String.eqb k "_op_type" || String.eqb k "_index" || String.eqb k "_id".

Definition stored (action : dict) : string * dict :=
  (match dict_get action "_index" with Some (VStr i) => i | _ => "" end,
   List.filter (fun kv => negb (control_key (fst kv))) action).

Definition hit_of (d : dict) : value :=
  VDict [("_score", VInt 1); ("_source", VDict d)].

Definition exists_ (index : string) (s : cluster_state) : result bool :=
  Ok (match indices s !! index with Some _ => true | None => false end).

Definition create (index : string) (body : value) (s : cluster_state)
  : result value * cluster_state :=
  match indices s !! index with
  | Some _ => (Raise (LibraryError "resource_already_exists_exception"), s)
  | None =>
      (Ok (VDict [("acknowledged", VBool true)]),
       mkCluster (<[index := body]> (indices s)) (documents s))
  end.

Definition bulk (actions : list dict) (refresh : bool) (s : cluster_state)
  : result value * cluster_state :=
  (Ok (VList [VInt (Z.of_nat (length actions)); VList []]),
   mkCluster (indices s) (documents s ++ map stored actions)).

Definition search (index : string) (body : value) (s : cluster_state)
  : result value :=
  match indices s !! index with
  | None => Raise (LibraryError "index_not_found_exception")
  | Some _ =>
      let found :=
        map (fun p => hit_of (snd p))
            (List.filter (fun p => String.eqb (fst p) index)
                         (documents s)) in
      Ok (VDict [("hits", VDict [("hits", VList found)])])
  end.

#[global] Instance service : Service cluster_state := {
  svc_exists := exists_;
  svc_create := create;
  svc_bulk := bulk;
  svc_search := search
}.

Definition empty_cluster : cluster_state := mkCluster ∅ [].

(** A fresh process: nothing cached, nothing printed, [env] as environment
    and [objs] as the dict objects the caller has built. *)
Definition start (env : gmap string string) (objs : list dict)
  : World cluster_state :=
  mkWorld env None 0 (map_seq 0 objs) [] [] empty_cluster.

Definition env_full : gmap string string :=
  <["OPENSEARCH_HOST" := "search.example.org"]>
    (<["OPENSEARCH_USER" := "admin"]>
       (<["OPENSEARCH_PASS" := "secret"]> ∅)).

Definition doc1 : dict :=
  [("contract_id", VStr "C-001"); ("title", VStr "Alpha-Beta Agreement")].
Definition doc2 : dict :=
  [("contract_id", VStr "C-002"); ("title", VStr "Gamma Licence")].
(** a falsy [contract_id] next to an [id] *)
Definition doc_blank : dict :=
  [("contract_id", VStr ""); ("id", VStr "X-9")].
(** a document that carries control fields of its own *)
Definition doc_ctl : dict :=
  [("contract_id", VStr "C-003"); ("_id", VStr "mine");
   ("_index", VStr "elsewhere")].

(** the process of the module's example: two contracts, client not yet
    built *)
Definition contracts : World cluster_state := start env_full [doc1; doc2].

(** the client that a first call of the provider builds under [env_full] *)
Definition client0 : OpenSearch :=
  mkOpenSearch 0 (Some "search.example.org") 443
    (Some "admin", Some "secret") true true RequestsHttpConnection 30.

Definition phrase_query : value :=
  VDict [("match_phrase", VDict [("full_text", VStr "indemnity")])].

(** the same process once the index is created and the contracts loaded *)
Definition indexed : World cluster_state :=
  snd ((create_index_if_not_exists "contracts_meta" (VDict []) None ;;;
        bulk_index_metadata "contracts_meta" [0; 1] None) contracts).

End Mem.

(** ** A service with faults

    The in-memory service behind four switches, each of which makes one
    kind of request fail.  Used to run the error paths. *)

Module Flaky.

Record state : Type := mkState {
  base : Mem.cluster_state;
  exists_down : bool;
  create_denied : bool;
  bulk_rejects : bool;
  search_fails : bool
}.

Definition with_base (b : Mem.cluster_state) (s : state) : state :=
  mkState b (exists_down s) (create_denied s) (bulk_rejects s)
          (search_fails s).

Definition exists_ (index : string) (s : state) : result bool :=
  if exists_down s then Raise (LibraryError "ConnectionError")
  else Mem.exists_ index (base s).

Definition create (index : string) (body : value) (s : state)
  : result value * state :=
  if create_denied s then (Raise (LibraryError "AuthorizationException"), s)
  else let (r, b) := Mem.create index body (base s) in (r, with_base b s).

Definition bulk (actions : list dict) (refresh : bool) (s : state)
  : result value * state :=
  if bulk_rejects s then (Raise (LibraryError "BulkIndexError"), s)
  else let (r, b) := Mem.bulk actions refresh (base s) in (r, with_base b s).

Definition search (index : string) (body : value) (s : state)
  : result value :=
  if search_fails s then Raise (LibraryError "ConnectionTimeout")
  else Mem.search index body (base s).

#[global] Instance service : Service state := {
  svc_exists := exists_;
  svc_create := create;
  svc_bulk := bulk;
  svc_search := search
}.

(** the process of the module's example in front of a faulty service *)
Definition contracts (down denied rejects fails : bool) : World state :=
  mkWorld Mem.env_full None 0 (map_seq 0 [Mem.doc1; Mem.doc2]) [] []
          (mkState Mem.empty_cluster down denied rejects fails).

End Flaky.

(** ** A service with a refresh interval

    The in-memory service in front of a buffer: a batch written without a
    refresh stays in the buffer, out of reach of searches; a batch written
    with a refresh becomes searchable at once, together with what the
    buffer held. *)

Module Nrt.

Record state : Type := mkState {
  base : Mem.cluster_state;
  buffered : list (string * dict)
}.

Definition exists_ (index : string) (s : state) : result bool :=
  Mem.exists_ index (base s).

Definition create (index : string) (body : value) (s : state)
  : result value * state :=
  let (r, b) := Mem.create index body (base s) in (r, mkState b (buffered s)).

Definition bulk (actions : list dict) (refresh : bool) (s : state)
  : result value * state :=
  let written := map Mem.stored actions in
  (Ok (VList [VInt (Z.of_nat (length actions)); VList []]),
   if refresh
   then mkState (Mem.mkCluster (Mem.indices (base s))
                   (Mem.documents (base s) ++ buffered s ++ written))
                []
   else mkState (base s) (buffered s ++ written)).

Definition search (index : string) (body : value) (s : state)
  : result value :=
  Mem.search index body (base s).

#[global] Instance service : Service state := {
  svc_exists := exists_;
  svc_create := create;
  svc_bulk := bulk;
  svc_search := search
}.

(** the process of the module's example with the index in place *)
Definition contracts : World state :=
  mkWorld Mem.env_full None 0 (map_seq 0 [Mem.doc1; Mem.doc2]) [] []
          (mkState (Mem.mkCluster (<["contracts_meta" := VDict []]> ∅) [])
                   []).

End Nrt.

(** ** Notions used in the statements *)

(** The client a library call goes through. *)
Definition call_client (k : call) : OpenSearch :=
  match k with
  | IndicesExists c _ => c
  | IndicesCreate c _ _ => c
  | HelpersBulk c _ _ => c
  | Search c _ _ => c
  end.

(** The keys the loader sets itself in an action. *)
Definition is_control_field (k : string) : bool :=
  String.eqb k "_op_type" || String.eqb k "_index" || String.eqb k "_id".

Section Script.
Context {S : Type} `{Service S} `{Interpreter}.

(** Lines 108, 115 and 119 of the script at the end of the module: the
    three operations in a row on one index, with one client argument. *)
Definition load_and_query (index_name : string) (mapping : value)
    (docs : list nat) (query_body : value) (size : option value)
    (client : option pyobj) : M S value :=
  create_index_if_not_exists index_name mapping client ;;;
  bulk_index_metadata index_name docs client ;;;
  query_index index_name query_body size client.

(** What a run from [w] to [w'] through the client [c] may have done, [w1]
    being the world in which [c] was resolved: the provider's state is that
    of [w1], the environment is untouched, the store has only grown, and
    every library call that was added went through [c]. *)
Definition served_by (c : OpenSearch) (w1 w w' : World S) : Prop :=
  lru_slot w' = lru_slot w1 /\ next_id w' = next_id w1 /\
  environ w' = environ w /\ heap w ⊆ heap w' /\
  exists new, calls w' = calls w ++ new /\
              Forall (fun k => call_client k = c) new.

End Script.

(** ** Dictionaries *)

Section DictFacts.

Lemma dict_get_set_eq k v d : dict_get (dict_set k v d) k = Some v.
Proof.
  induction d as [|[k' v'] d IH]; simpl.
  - by rewrite String.eqb_refl.
  - destruct (String.eqb k' k) eqn:E; simpl; rewrite E; [done | exact IH].
Qed.

Lemma dict_get_set_ne k k' v d :
  k <> k' -> dict_get (dict_set k v d) k' = dict_get d k'.
Proof.
  intros Hne. induction d as [|[k0 v0] d IH]; simpl.
  - destruct (String.eqb k k') eqn:E; [|done].
    apply String.eqb_eq in E. contradiction.
  - destruct (String.eqb k0 k) eqn:E; simpl.
    + apply String.eqb_eq in E. subst k0.
      destruct (String.eqb k k') eqn:E'; [|done].
      apply String.eqb_eq in E'. contradiction.
    + by rewrite IH.
Qed.

Lemma dict_get_None_keys d k : dict_get d k = None <-> k ∉ map fst d.
Proof.
  induction d as [|[k' v'] d IH]; simpl.
  - split; [intros _; apply not_elem_of_nil | done].
  - destruct (String.eqb k' k) eqn:E.
    + apply String.eqb_eq in E. subst. split; [done|].
      intros Hn. exfalso. apply Hn. left.
    + apply String.eqb_neq in E. rewrite IH. split.
      * intros Hn Hin. apply elem_of_cons in Hin as [->|Hin]; [done|].
        by apply Hn.
      * intros Hn Hin. apply Hn. by right.
Qed.

Lemma dict_wf_NoDup d : dict_wf d <-> NoDup (map fst d).
Proof.
  unfold dict_wf. induction d as [|[k v] d IH]; simpl.
  - split; [intros _; constructor | done].
  - rewrite NoDup_cons, <- IH, andb_true_iff, negb_true_iff.
    rewrite <- dict_get_None_keys. unfold dict_mem.
    destruct (dict_get d k); intuition congruence.
Qed.

(** Reading a dictionary after an update with a well-formed one: the
    update wins wherever it has the key. *)
Lemma dict_get_update base extra k :
  dict_wf extra ->
  dict_get (dict_update base extra) k =
    match dict_get extra k with
    | Some v => Some v
    | None => dict_get base k
    end.
Proof.
  rewrite dict_wf_NoDup. unfold dict_update. revert base.
  induction extra as [|[k0 v0] extra IH]; intros base Hwf; simpl; [done|].
  simpl in Hwf. apply NoDup_cons in Hwf as [Hfresh Hwf].
  rewrite IH by done.
  destruct (String.eqb k0 k) eqn:E.
  - apply String.eqb_eq in E. subst k0.
    apply dict_get_None_keys in Hfresh. rewrite Hfresh.
    apply dict_get_set_eq.
  - apply String.eqb_neq in E.
    destruct (dict_get extra k); [done|]. by apply dict_get_set_ne.
Qed.

Lemma dict_set_keys k v d :
  map fst (dict_set k v d) =
    if dict_mem d k then map fst d else map fst d ++ [k].
Proof.
  unfold dict_mem. induction d as [|[k' v'] d IH]; simpl; [done|].
  destruct (String.eqb k' k) eqn:E; simpl; [done|].
  rewrite IH. by destruct (dict_get d k).
Qed.

Lemma dict_set_wf k v d : dict_wf d -> dict_wf (dict_set k v d).
Proof.
  rewrite !dict_wf_NoDup. intros Hwf. rewrite dict_set_keys.
  unfold dict_mem.
  destruct (dict_get d k) eqn:E; [done|].
  apply dict_get_None_keys in E.
  apply NoDup_app. split_and!; [done| |apply NoDup_singleton].
  intros x Hx Hk. apply list_elem_of_singleton in Hk. by subst.
Qed.

Lemma dict_update_wf base extra :
  dict_wf base -> dict_wf (dict_update base extra).
Proof.
  unfold dict_update. revert base.
  induction extra as [|[k v] extra IH]; intros base Hwf; simpl; [done|].
  apply IH. by apply dict_set_wf.
Qed.

End DictFacts.

(** ** Laws of the monad *)

Section MonadLaws.
Context {S : Type}.

Lemma bind_ret {A B} (a : A) (f : A -> M S B) w : bind (ret a) f w = f a w.
Proof. reflexivity. Qed.

Lemma bind_assoc {A B C} (m : M S A) (f : A -> M S B) (g : B -> M S C) w :
  bind (bind m f) g w = bind m (fun a => bind (f a) g) w.
Proof. unfold bind. by destruct (m w) as [[a|e] w']. Qed.

Lemma bind_cong {A B} (m m' : M S A) (f : A -> M S B) w :
  m w = m' w -> bind m f w = bind m' f w.
Proof. unfold bind. by intros ->. Qed.

Lemma bind_ext {A B} (m : M S A) (f g : A -> M S B) w :
  (forall a w', f a w' = g a w') -> bind m f w = bind m g w.
Proof. intros Hfg. unfold bind. by destruct (m w) as [[a|e] w']. Qed.

End MonadLaws.

(** ** The client provider *)

Section ClientProvider.
Context {S : Type} {svc : Service S} {interp : Interpreter}.
Implicit Types (w : World S) (c : OpenSearch).

Ltac run := unfold bind, ret, raise, lift, getenv, print; simpl.

Lemma get_os_client_cached w c :
  lru_slot w = Some c -> get_os_client w = (Ok c, w).
Proof. intros Hc. unfold get_os_client, lru_cache. by rewrite Hc. Qed.

(** A first call: the body runs; the port is converted first, then the
    constructor meets the host. *)
Lemma get_os_client_first w :
  lru_slot w = None ->
  get_os_client w =
    match port_of (environ w !! "OPENSEARCH_PORT") with
    | Ok p =>
        match environ w !! "OPENSEARCH_HOST" with
        | Some h =>
            let c := mkOpenSearch (next_id w) (Some h) p
                       (environ w !! "OPENSEARCH_USER",
                        environ w !! "OPENSEARCH_PASS")
                       true true RequestsHttpConnection 30 in
            (Ok c,
             mkWorld (environ w) (Some c) (Datatypes.S (next_id w)) (heap w)
                     (stdout w) (calls w) (cluster w))
        | None => (Raise TypeError, w)
        end
    | Raise e => (Raise e, w)
    end.
Proof.
  intros Hc. unfold get_os_client, lru_cache. rewrite Hc.
  unfold get_os_client_body, new_OpenSearch. run.
  destruct (port_of (environ w !! "OPENSEARCH_PORT")); [|done].
  by destruct (environ w !! "OPENSEARCH_HOST").
Qed.

Lemma get_os_client_bad_port w e :
  lru_slot w = None ->
  port_of (environ w !! "OPENSEARCH_PORT") = Raise e ->
  get_os_client w = (Raise e, w).
Proof. intros Hc Hp. rewrite get_os_client_first by done. by rewrite Hp. Qed.

Lemma get_os_client_fills w c w' :
  get_os_client w = (Ok c, w') -> lru_slot w' = Some c.
Proof.
  destruct (lru_slot w) as [c0|] eqn:Hc.
  - rewrite (get_os_client_cached w c0) by done. by intros [= <- <-].
  - rewrite get_os_client_first by done.
    destruct (port_of _); [|done].
    destruct (environ w !! "OPENSEARCH_HOST"); [|done]. by intros [= <- <-].
Qed.

(** The provider touches its cache and the object counter only. *)
Lemma get_os_client_frame w r w' :
  get_os_client w = (r, w') ->
  environ w' = environ w /\ heap w' = heap w /\ stdout w' = stdout w /\
  calls w' = calls w /\ cluster w' = cluster w.
Proof.
  destruct (lru_slot w) as [c0|] eqn:Hc.
  - rewrite (get_os_client_cached w c0) by done. by intros [= <- <-].
  - rewrite get_os_client_first by done.
    destruct (port_of _); [|by intros [= <- <-]].
    destruct (environ w !! "OPENSEARCH_HOST"); by intros [= <- <-].
Qed.

(** *** [client or get_os_client()] *)

Lemma client_or_default_truthy client w :
  obj_truthy (supplied client) = true ->
  client_or_default client w = (Ok (supplied client), w).
Proof. intros Ht. unfold client_or_default. simpl. by rewrite Ht. Qed.

Lemma client_or_default_falsy client w :
  obj_truthy (supplied client) = false ->
  client_or_default client w = (c <- get_os_client ;; ret (Client c)) w.
Proof. intros Hf. unfold client_or_default. simpl. by rewrite Hf. Qed.

Lemma client_or_default_frame client w r w' :
  client_or_default client w = (r, w') ->
  environ w' = environ w /\ heap w' = heap w /\ stdout w' = stdout w /\
  calls w' = calls w /\ cluster w' = cluster w.
Proof.
  destruct (obj_truthy (supplied client)) eqn:Ht.
  - rewrite client_or_default_truthy by done. by intros [= <- <-].
  - rewrite client_or_default_falsy by done. unfold bind, ret.
    destruct (get_os_client w) as [[c|e] w1] eqn:Hg;
      intros [= <- <-]; by eapply get_os_client_frame.
Qed.

(** Once a client has been resolved, resolving again gives the same one
    and changes nothing, whatever happened to the rest of the world. *)
Lemma client_or_default_again client w c w1 w2 :
  client_or_default client w = (Ok (Client c), w1) ->
  lru_slot w2 = lru_slot w1 ->
  client_or_default client w2 = (Ok (Client c), w2).
Proof.
  destruct (obj_truthy (supplied client)) eqn:Ht.
  - rewrite !client_or_default_truthy by done. by intros [= -> <-] _.
  - rewrite !client_or_default_falsy by done. unfold bind, ret.
    destruct (get_os_client w) as [[c0|e] w0] eqn:Hg; [|done].
    intros [= -> <-] Hslot. apply get_os_client_fills in Hg.
    rewrite (get_os_client_cached w2 c); [done | congruence].
Qed.

End ClientProvider.

Section ProviderClaims.
Context {S : Type} {svc : Service S} {interp : Interpreter}.
Implicit Types (w : World S) (c : OpenSearch).

(** C1 (as amended).  The provider validates nothing itself.  With the
    host variable unset a first call fails and makes no call to the service
    (the process is left as it was), but the exception is the [TypeError]
    of the client constructor, or that of [int] when the port variable is
    refused.  A malformed host and missing credentials are no failure:
    with the host variable set and the port variable unset or accepted by
    [int], a first call returns a handle that carries host, user and
    password exactly as read ([None] for a missing one), and makes no call
    to the service. *)
Theorem get_os_client_no_validation w :
  lru_slot w = None ->
  (environ w !! "OPENSEARCH_HOST" = None ->
   get_os_client w =
     (Raise match port_of (environ w !! "OPENSEARCH_PORT") with
            | Ok _ => TypeError
            | Raise e => e
            end,
      w)) /\
  (forall h p,
     environ w !! "OPENSEARCH_HOST" = Some h ->
     port_of (environ w !! "OPENSEARCH_PORT") = Ok p ->
     exists c w',
       get_os_client w = (Ok c, w') /\
       host c = Some h /\
       http_auth c =
         (environ w !! "OPENSEARCH_USER", environ w !! "OPENSEARCH_PASS") /\
       port c = p /\
       calls w' = calls w /\ cluster w' = cluster w).
Proof.
  intros Hc. rewrite get_os_client_first by done. split.
  - intros ->. by destruct (port_of _).
  - intros h p -> ->. eexists _, _. split; [reflexivity|]. by simpl.
Qed.

(** C7.  A second call of [get_os_client] returns the handle of the first
    one, the same object, and constructs nothing: the world is left as it
    is, even if the environment has changed in between. *)
Theorem get_os_client_memoized w c w1 env :
  get_os_client w = (Ok c, w1) ->
  get_os_client w1 = (Ok c, w1) /\
  get_os_client (set_environ env w1) = (Ok c, set_environ env w1).
Proof.
  intros Hfirst. apply get_os_client_fills in Hfirst.
  split; by apply get_os_client_cached.
Qed.

End ProviderClaims.

(** C1, counterexample.  With a host that is no host name and without
    credentials the provider returns a handle; so it does with a proper
    host and without credentials. *)
Lemma get_os_client_accepts_bad_configuration :
  (environ (Mem.start (<["OPENSEARCH_HOST" := "://not a host"]> ∅) [])
     !! "OPENSEARCH_USER" = None /\
   environ (Mem.start (<["OPENSEARCH_HOST" := "://not a host"]> ∅) [])
     !! "OPENSEARCH_PASS" = None /\
   ~ raises get_os_client
       (Mem.start (<["OPENSEARCH_HOST" := "://not a host"]> ∅) [])) /\
  ~ raises get_os_client
      (Mem.start (<["OPENSEARCH_HOST" := "search.example.org"]> ∅) []).
Proof.
  split; [split_and!; [reflexivity | reflexivity |]|];
    intros [e He]; vm_compute in He; discriminate.
Qed.

Lemma get_os_client_no_validation_witness :
  get_os_client (Mem.start ∅ []) = (Raise TypeError, Mem.start ∅ []) /\
  exists c w',
    get_os_client
      (Mem.start (<["OPENSEARCH_HOST" := "://not a host"]> ∅) [])
      = (Ok c, w') /\
    host c = Some "://not a host" /\
    http_auth c = (None, None) /\
    port c = 443%Z /\
    calls w' =
      calls (Mem.start (<["OPENSEARCH_HOST" := "://not a host"]> ∅) []) /\
    cluster w' =
      cluster (Mem.start (<["OPENSEARCH_HOST" := "://not a host"]> ∅) []).
Proof.
  split.
  - exact (proj1 (get_os_client_no_validation (Mem.start ∅ []) eq_refl)
             eq_refl).
  - exact (proj2 (get_os_client_no_validation
                    (Mem.start (<["OPENSEARCH_HOST" := "://not a host"]> ∅)
                       [])
                    eq_refl) "://not a host" 443%Z eq_refl eq_refl).
Defined.

Lemma get_os_client_memoized_witness :
  let w1 := snd (get_os_client (Mem.start Mem.env_full [])) in
  let c := mkOpenSearch 0 (Some "search.example.org") 443
             (Some "admin", Some "secret") true true
             RequestsHttpConnection 30 in
  get_os_client w1 = (Ok c, w1) /\
  get_os_client (set_environ ∅ w1) = (Ok c, set_environ ∅ w1).
Proof.
  apply (get_os_client_memoized (Mem.start Mem.env_full [])).
  vm_compute. reflexivity.
Defined.

(** ** The object store *)

Section Store.
Context {S : Type} {svc : Service S} {interp : Interpreter}.
Implicit Types (w : World S) (c : OpenSearch).

Lemma set_heap_same w : set_heap (heap w) w = w.
Proof. by destruct w. Qed.

Lemma heap_extends_ret {A} (a : A) : heap_extends (S:=S) (ret a).
Proof. by intros w. Qed.

Lemma heap_extends_raise {A} e : heap_extends (S:=S) (A:=A) (raise e).
Proof. by intros w. Qed.

Lemma heap_extends_lift {A} (r : result A) : heap_extends (S:=S) (lift r).
Proof. by intros w. Qed.

Lemma heap_extends_bind {A B} (m : M S A) (f : A -> M S B) :
  heap_extends m -> (forall a, heap_extends (f a)) ->
  heap_extends (bind m f).
Proof.
  intros Hm Hf w. unfold bind. specialize (Hm w).
  destruct (m w) as [[a|e] w1]; simpl in *; [|done].
  etrans; [exact Hm | apply Hf].
Qed.

Lemma heap_extends_print line : heap_extends (S:=S) (print line).
Proof. by intros w. Qed.

Lemma heap_extends_load l : heap_extends (S:=S) (load l).
Proof. intros w. unfold load. by destruct (heap w !! l). Qed.

Lemma alloc_fresh w : heap w !! fresh (dom (heap w)) = None.
Proof. apply not_elem_of_dom, is_fresh. Qed.

Lemma heap_extends_alloc d : heap_extends (S:=S) (alloc d).
Proof. intros w. simpl. apply insert_subseteq, alloc_fresh. Qed.

Lemma heap_extends_get_os_client : heap_extends (S:=S) get_os_client.
Proof.
  intros w. destruct (get_os_client w) as [r w'] eqn:Hg.
  simpl. apply get_os_client_frame in Hg as (_ & -> & _). done.
Qed.

Lemma heap_extends_client_or_default client :
  heap_extends (S:=S) (client_or_default client).
Proof.
  intros w. destruct (client_or_default client w) as [r w'] eqn:Hg.
  simpl. apply client_or_default_frame in Hg as (_ & -> & _). done.
Qed.

Lemma heap_extends_as_client o : heap_extends (S:=S) (as_client o).
Proof. destruct o; [apply heap_extends_raise | apply heap_extends_ret]. Qed.

Lemma heap_extends_load_all ls : heap_extends (S:=S) (load_all ls).
Proof.
  induction ls as [|l ls IH]; simpl; [apply heap_extends_ret|].
  apply heap_extends_bind; [apply heap_extends_load|]. intros d.
  apply heap_extends_bind; [exact IH|]. intros ds. apply heap_extends_ret.
Qed.

Lemma heap_extends_helpers_bulk client actions refresh :
  heap_extends (S:=S) (helpers_bulk client actions refresh).
Proof.
  unfold helpers_bulk.
  apply heap_extends_bind; [apply heap_extends_as_client|]. intros c.
  apply heap_extends_bind; [apply heap_extends_load_all|]. intros acts w.
  by destruct (svc_bulk acts refresh (cluster w)).
Qed.

Lemma heap_extends_build_actions index_name docs :
  heap_extends (S:=S) (build_actions index_name docs).
Proof.
  induction docs as [|l docs IH]; simpl; [apply heap_extends_ret|].
  apply heap_extends_bind; [apply heap_extends_load|]. intros d.
  apply heap_extends_bind; [apply heap_extends_alloc|]. intros a.
  apply heap_extends_bind; [exact IH|]. intros rest. apply heap_extends_ret.
Qed.

Lemma heap_extends_bulk_index_metadata index_name docs client :
  heap_extends (S:=S) (bulk_index_metadata index_name docs client).
Proof.
  unfold bulk_index_metadata.
  apply heap_extends_bind; [apply heap_extends_client_or_default|].
  intros o.
  apply heap_extends_bind; [apply heap_extends_build_actions|].
  intros actions.
  apply heap_extends_bind; [apply heap_extends_helpers_bulk|]. intros _.
  apply heap_extends_bind; [apply heap_extends_print|]. intros _.
  apply heap_extends_ret.
Qed.

Lemma designate_weaken w w' docs ds :
  heap w ⊆ heap w' -> designate w docs ds -> designate w' docs ds.
Proof.
  intros Hsub Hd. eapply Forall2_impl; [exact Hd|].
  intros l d Hl. simpl in Hl. eapply lookup_weaken; eauto.
Qed.

Lemma load_all_spec las acts w :
  designate w las acts -> load_all las w = (Ok acts, w).
Proof.
  induction 1 as [|la a las acts Hla _ IH]; simpl; [done|].
  unfold bind, load. rewrite Hla, IH. done.
Qed.

(** The comprehension allocates one action per document, in order, and
    changes nothing else. *)
Lemma build_actions_spec index_name docs ds w :
  designate w docs ds ->
  exists las h',
    build_actions index_name docs w = (Ok las, set_heap h' w) /\
    heap w ⊆ h' /\
    designate (set_heap h' w) las (map (action_of index_name) ds).
Proof.
  revert ds w. induction docs as [|l docs IH]; intros ds w Hd.
  - apply Forall2_nil_inv_l in Hd as ->. exists [], (heap w).
    simpl. rewrite set_heap_same. split_and!; [done..|constructor].
  - apply Forall2_cons_inv_l in Hd as (d & ds' & Hl & Hd & ->).
    set (a := fresh (dom (heap w))).
    set (w1 := set_heap (<[a := action_of index_name d]> (heap w)) w).
    assert (Hsub : heap w ⊆ heap w1).
    { simpl. apply insert_subseteq, alloc_fresh. }
    destruct (IH ds' w1) as (las & h' & Hrun & Hsub' & Hlas).
    { by eapply designate_weaken. }
    exists (a :: las), h'. cbn [build_actions]. unfold bind at 1.
    unfold load. rewrite Hl. unfold bind at 1. cbn [alloc].
    fold a. fold w1. unfold bind. rewrite Hrun. simpl.
    split_and!; [done | by etrans |].
    constructor; [|exact Hlas]. simpl.
    eapply lookup_weaken; [|exact Hsub']. simpl.
    apply lookup_insert_eq.
Qed.

End Store.

(** ** The bulk loader *)

Section BulkLoader.
Context {S : Type} {svc : Service S} {interp : Interpreter}.
Implicit Types (w : World S) (c : OpenSearch).

(** What an action holds under a key: the document's value if the document
    has the key, else the control field the loader derived. *)
Lemma action_of_lookup index_name doc k :
  dict_wf doc ->
  dict_get (action_of index_name doc) k =
    match dict_get doc k with
    | Some v => Some v
    | None =>
        dict_get [("_op_type", VStr "index"); ("_index", VStr index_name);
                  ("_id", derived_id doc)] k
    end.
Proof.
  intros Hwf. unfold action_of, dict_display. by rewrite dict_get_update.
Qed.

Lemma action_of_wf index_name doc : dict_wf (action_of index_name doc).
Proof. unfold action_of, dict_display. by apply dict_update_wf. Qed.

(** One run of the loader with a resolved client and live documents. *)
Lemma bulk_index_metadata_run index_name docs ds client c w w1 :
  client_or_default client w = (Ok (Client c), w1) ->
  designate w docs ds ->
  exists h',
    heap w ⊆ h' /\
    bulk_index_metadata index_name docs client w =
      (let acts := map (action_of index_name) ds in
       let w2 := set_cluster (snd (svc_bulk acts true (cluster w)))
                   (record (HelpersBulk c acts true) (set_heap h' w1)) in
       match fst (svc_bulk acts true (cluster w)) with
       | Ok _ =>
           (Ok VNone,
            emit ("Indexed " ++ pretty (length docs) ++ " documents into '"
                  ++ index_name ++ "'") w2)
       | Raise e => (Raise e, w2)
       end).
Proof.
  intros Hres Hd.
  pose proof (client_or_default_frame _ _ _ _ Hres) as (_ & Hh & _ & _ & Hcl).
  assert (Hd1 : designate w1 docs ds).
  { eapply designate_weaken; [|exact Hd]. by rewrite Hh. }
  destruct (build_actions_spec index_name docs ds w1 Hd1)
    as (las & h' & Hrun & Hsub & Hlas).
  exists h'. split; [by rewrite <- Hh|].
  unfold bulk_index_metadata. unfold bind at 1. rewrite Hres.
  unfold bind at 1. rewrite Hrun.
  assert (Hlen : length las = length docs).
  { apply Forall2_length in Hlas. apply Forall2_length in Hd.
    rewrite length_map in Hlas. congruence. }
  unfold helpers_bulk, bind, as_client, ret. rewrite (load_all_spec _ _ _ Hlas).
  simpl. rewrite Hcl, Hlen.
  by destruct (svc_bulk (map (action_of index_name) ds) true (cluster w))
    as [[r|e] s'].
Qed.

(** C2 (as amended).  When the batch helper returns, the loader returns
    [None]; the number of documents appears only in the line it prints. *)
Theorem bulk_index_metadata_returns_none index_name docs ds client c w w1 r :
  client_or_default client w = (Ok (Client c), w1) ->
  designate w docs ds ->
  fst (svc_bulk (map (action_of index_name) ds) true (cluster w)) = Ok r ->
  fst (bulk_index_metadata index_name docs client w) = Ok VNone /\
  stdout (snd (bulk_index_metadata index_name docs client w)) =
    stdout w ++ [("Indexed " ++ pretty (length docs) ++ " documents into '"
                  ++ index_name ++ "'")%string].
Proof.
  intros Hres Hd Hok.
  destruct (bulk_index_metadata_run index_name _ _ _ _ _ _ Hres Hd)
    as (h' & _ & ->).
  apply client_or_default_frame in Hres as (_ & _ & Hout & _).
  simpl. rewrite Hok. simpl. by rewrite Hout.
Qed.

(** C3 (as amended).  For a document without a key [_id] of its own, the
    identifier attached to its action is the value of [contract_id] when
    that field is present and true; otherwise, [contract_id] being absent
    or false, it is the value of [id] when [id] is present, and [None] (no
    identifier) when [id] is absent. *)
Theorem action_identifier index_name doc :
  dict_wf doc ->
  dict_get doc "_id" = None ->
  exists ident,
    dict_get (action_of index_name doc) "_id" = Some ident /\
    (forall cid, dict_get doc "contract_id" = Some cid ->
                 truthy cid = true -> ident = cid) /\
    ((forall cid, dict_get doc "contract_id" = Some cid ->
                  truthy cid = false) ->
     (forall alt, dict_get doc "id" = Some alt -> ident = alt) /\
     (dict_get doc "id" = None -> ident = VNone)).
Proof.
  intros Hwf Hno. exists (derived_id doc).
  rewrite action_of_lookup, Hno by done. split; [done|].
  unfold derived_id, py_or, dict_get_or. split.
  - intros cid -> Ht. by rewrite Ht.
  - intros Hfalsy.
    assert (Hsel : (if truthy (match dict_get doc "contract_id" with
                               | Some v => v | None => VNone end)
                    then match dict_get doc "contract_id" with
                         | Some v => v | None => VNone end
                    else match dict_get doc "id" with
                         | Some v => v | None => VNone end)
                   = match dict_get doc "id" with
                     | Some v => v | None => VNone end).
    { destruct (dict_get doc "contract_id") as [cid|]; [|done].
      by rewrite (Hfalsy cid eq_refl). }
    rewrite Hsel. split; [by intros alt -> | by intros ->].
Qed.

(** C8.  The loader leaves the caller's documents as they are: every
    reference designates after the call the dictionary it designated
    before, and so does every other object of the store. *)
Theorem bulk_index_metadata_keeps_documents index_name docs ds client w :
  designate w docs ds ->
  designate (snd (bulk_index_metadata index_name docs client w)) docs ds /\
  heap w ⊆ heap (snd (bulk_index_metadata index_name docs client w)).
Proof.
  intros Hd.
  pose proof (heap_extends_bulk_index_metadata index_name docs client w).
  split; [by eapply designate_weaken | done].
Qed.

(** C9.  In the batch the loader submits, each action holds, under every
    key of its document, the document's value: a document with a key
    [_id], [_index] or [_op_type] replaces the derived identifier, the
    index name given to the loader, or the operation type ["index"], which
    the action holds only when the document lacks the key. *)
Theorem bulk_index_metadata_document_overrides
    index_name docs ds client c w w1 :
  client_or_default client w = (Ok (Client c), w1) ->
  designate w docs ds ->
  Forall dict_wf ds ->
  exists acts,
    calls (snd (bulk_index_metadata index_name docs client w)) =
      calls w ++ [HelpersBulk c acts true] /\
    Forall2 (fun a d =>
               (forall k v, dict_get d k = Some v -> dict_get a k = Some v) /\
               (dict_get d "_id" = None ->
                dict_get a "_id" = Some (derived_id d)) /\
               (dict_get d "_index" = None ->
                dict_get a "_index" = Some (VStr index_name)) /\
               (dict_get d "_op_type" = None ->
                dict_get a "_op_type" = Some (VStr "index")))
            acts ds.
Proof.
  intros Hres Hd Hwf. exists (map (action_of index_name) ds). split.
  - destruct (bulk_index_metadata_run index_name _ _ _ _ _ _ Hres Hd)
      as (h' & _ & ->).
    apply client_or_default_frame in Hres as (_ & _ & _ & Hcalls & _).
    simpl. destruct (fst (svc_bulk _ _ _)); simpl; by rewrite Hcalls.
  - apply Forall2_fmap_l, Forall_Forall2_diag.
    eapply Forall_impl; [exact Hwf|]. intros d Hd'. simpl.
    split_and!.
    + intros k v Hk. by rewrite action_of_lookup, Hk.
    + intros Hk. by rewrite action_of_lookup, Hk.
    + intros Hk. by rewrite action_of_lookup, Hk.
    + intros Hk. by rewrite action_of_lookup, Hk.
Qed.

End BulkLoader.

(** C2, counterexample.  Two documents are loaded and the loader returns
    [None], not the count 2. *)
Lemma bulk_index_metadata_no_count :
  designate Mem.contracts [0; 1] [Mem.doc1; Mem.doc2] /\
  fst (bulk_index_metadata "contracts_meta" [0; 1] None Mem.contracts)
    = Ok VNone /\
  fst (bulk_index_metadata "contracts_meta" [0; 1] None Mem.contracts)
    <> Ok (VInt 2).
Proof.
  split; [repeat constructor|].
  split; [vm_compute; reflexivity | vm_compute; discriminate].
Qed.

Lemma bulk_index_metadata_returns_none_witness :
  fst (bulk_index_metadata "contracts_meta" [0; 1] None Mem.contracts)
    = Ok VNone /\
  stdout (snd (bulk_index_metadata "contracts_meta" [0; 1] None
                 Mem.contracts)) =
    stdout Mem.contracts ++
      [("Indexed " ++ pretty (length [0; 1]) ++ " documents into '"
        ++ "contracts_meta" ++ "'")%string].
Proof.
  eapply (bulk_index_metadata_returns_none "contracts_meta" [0; 1]
            [Mem.doc1; Mem.doc2] None _ Mem.contracts).
  - vm_compute. reflexivity.
  - repeat constructor.
  - vm_compute. reflexivity.
Defined.

(** C3, counterexample.  The field [contract_id] is present, with the
    empty string as its value, and the identifier attached is the value of
    [id]. *)
Lemma action_identifier_skips_falsy_contract_id :
  dict_get Mem.doc_blank "contract_id" = Some (VStr "") /\
  derived_id Mem.doc_blank = VStr "X-9" /\
  dict_get (action_of "contracts_meta" Mem.doc_blank) "_id"
    = Some (VStr "X-9") /\
  dict_get (action_of "contracts_meta" Mem.doc_blank) "_id"
    <> dict_get Mem.doc_blank "contract_id".
Proof. split_and!; [reflexivity.. | vm_compute; discriminate]. Qed.

Lemma action_identifier_witness :
  exists ident,
    dict_get (action_of "contracts_meta" Mem.doc1) "_id" = Some ident /\
    (forall cid, dict_get Mem.doc1 "contract_id" = Some cid ->
                 truthy cid = true -> ident = cid) /\
    ((forall cid, dict_get Mem.doc1 "contract_id" = Some cid ->
                  truthy cid = false) ->
     (forall alt, dict_get Mem.doc1 "id" = Some alt -> ident = alt) /\
     (dict_get Mem.doc1 "id" = None -> ident = VNone)).
Proof.
  apply (action_identifier "contracts_meta" Mem.doc1); reflexivity.
Defined.

Lemma bulk_index_metadata_keeps_documents_witness :
  designate
    (snd (bulk_index_metadata "contracts_meta" [0; 1] None Mem.contracts))
    [0; 1] [Mem.doc1; Mem.doc2] /\
  heap Mem.contracts ⊆
    heap (snd (bulk_index_metadata "contracts_meta" [0; 1] None
                 Mem.contracts)).
Proof.
  apply (bulk_index_metadata_keeps_documents "contracts_meta" [0; 1]
           [Mem.doc1; Mem.doc2] None Mem.contracts).
  repeat constructor.
Defined.

Lemma bulk_index_metadata_document_overrides_witness :
  exists acts,
    calls (snd (bulk_index_metadata "contracts_meta" [0; 1] None
                  (Mem.start Mem.env_full [Mem.doc1; Mem.doc_ctl]))) =
      calls (Mem.start Mem.env_full [Mem.doc1; Mem.doc_ctl]) ++
        [HelpersBulk
           (mkOpenSearch 0 (Some "search.example.org") 443
              (Some "admin", Some "secret") true true
              RequestsHttpConnection 30)
           acts true] /\
    Forall2 (fun a d =>
               (forall k v, dict_get d k = Some v -> dict_get a k = Some v) /\
               (dict_get d "_id" = None ->
                dict_get a "_id" = Some (derived_id d)) /\
               (dict_get d "_index" = None ->
                dict_get a "_index" = Some (VStr "contracts_meta")) /\
               (dict_get d "_op_type" = None ->
                dict_get a "_op_type" = Some (VStr "index")))
            acts [Mem.doc1; Mem.doc_ctl].
Proof.
  eapply (bulk_index_metadata_document_overrides "contracts_meta" [0; 1]
            [Mem.doc1; Mem.doc_ctl] None _
            (Mem.start Mem.env_full [Mem.doc1; Mem.doc_ctl])).
  - vm_compute. reflexivity.
  - repeat constructor.
  - repeat constructor.
Defined.

(** ** The index manager *)

Section IndexManager.
Context {S : Type} {svc : Service S} {interp : Interpreter}.
Implicit Types (w : World S) (c : OpenSearch).

(** One run with a resolved client. *)
Lemma create_index_run index_name mapping client c w w1 :
  client_or_default client w = (Ok (Client c), w1) ->
  create_index_if_not_exists index_name mapping client w =
    (let w2 := record (IndicesExists c index_name) w1 in
     match svc_exists index_name (cluster w) with
     | Raise e => (Raise e, w2)
     | Ok true =>
         (Ok VNone,
          emit ("Index '" ++ index_name ++ "' already exists.") w2)
     | Ok false =>
         let w3 :=
           set_cluster (snd (svc_create index_name mapping (cluster w)))
             (record (IndicesCreate c index_name mapping) w2) in
         match fst (svc_create index_name mapping (cluster w)) with
         | Ok _ => (Ok VNone, emit ("Created index '" ++ index_name ++ "'") w3)
         | Raise e => (Raise e, w3)
         end
     end).
Proof.
  intros Hres.
  pose proof (client_or_default_frame _ _ _ _ Hres) as (_ & _ & _ & _ & Hcl).
  unfold create_index_if_not_exists. unfold bind at 1. rewrite Hres.
  unfold bind, as_client, ret, indices_exists, indices_create, print.
  simpl. rewrite Hcl.
  destruct (svc_exists index_name (cluster w)) as [[|]|e]; simpl; [done| |done].
  rewrite Hcl.
  by destruct (svc_create index_name mapping (cluster w)) as [[r|e] s'].
Qed.

(** Without a client nothing reaches the service. *)
Lemma create_index_no_client index_name mapping client w :
  (forall c w1, client_or_default client w <> (Ok (Client c), w1)) ->
  exists e,
    fst (create_index_if_not_exists index_name mapping client w) = Raise e /\
    calls (snd (create_index_if_not_exists index_name mapping client w))
      = calls w /\
    cluster (snd (create_index_if_not_exists index_name mapping client w))
      = cluster w.
Proof.
  intros Hno. unfold create_index_if_not_exists, bind, as_client, raise.
  destruct (client_or_default client w) as [[[v|c]|e] w1] eqn:Hres.
  - apply client_or_default_frame in Hres as (_ & _ & _ & Hc & Hcl).
    exists AttributeError. simpl. by rewrite Hc, Hcl.
  - by destruct (Hno c w1).
  - apply client_or_default_frame in Hres as (_ & _ & _ & Hc & Hcl).
    exists e. simpl. by rewrite Hc, Hcl.
Qed.

(** C5.  On a service where a created index exists afterwards, invoking
    [create_index_if_not_exists] twice issues at most one create call and
    leaves the service in the state one invocation leaves it in; when the
    index exists already, an invocation issues no create call and leaves
    the service as it is. *)
Theorem create_index_idempotent index_name mapping client w :
  create_then_exists ->
  let once := create_index_if_not_exists index_name mapping client in
  let twice := (once ;;; once) in
  (exists new,
     calls (snd (twice w)) = calls w ++ new /\
     length (List.filter is_create new) <= 1) /\
  cluster (snd (twice w)) = cluster (snd (once w)) /\
  (svc_exists index_name (cluster w) = Ok true ->
   cluster (snd (once w)) = cluster w /\
   List.filter is_create (calls (snd (once w)))
     = List.filter is_create (calls w)).
Proof.
  intros Hlaw once twice. subst once twice.
  destruct (client_or_default client w) as [[[v|c]|e] w1] eqn:Hres.
  2: {
    pose proof (client_or_default_frame _ _ _ _ Hres)
      as (_ & _ & _ & Hc & Hcl).
    unfold bind. rewrite (create_index_run _ _ _ _ _ _ Hres). cbn zeta.
    destruct (svc_exists index_name (cluster w)) as [[|]|e] eqn:Hex.
    - (* the index is there: both runs only check *)
      set (w2 := emit _ _).
      assert (Hres2 : client_or_default client w2 = (Ok (Client c), w2))
        by (eapply client_or_default_again; [exact Hres | done]).
      rewrite (create_index_run _ _ _ _ _ _ Hres2). simpl.
      rewrite Hcl, Hex. simpl. rewrite Hc, Hcl. split_and!; [|done|].
      + eexists [_; _]. rewrite <- app_assoc. split; [reflexivity|].
        simpl. lia.
      + intros _. split; [done|].
        by rewrite List.filter_app, app_nil_r.
    - (* the index is missing: the first run creates it *)
      destruct (svc_create index_name mapping (cluster w))
        as [[r|e] s'] eqn:Hcr; simpl.
      + set (w3 := emit _ _).
        assert (Hres3 : client_or_default client w3 = (Ok (Client c), w3))
          by (eapply client_or_default_again; [exact Hres | done]).
        rewrite (create_index_run _ _ _ _ _ _ Hres3). simpl.
        rewrite (Hlaw _ _ _ _ _ Hcr). simpl. rewrite Hc.
        split_and!; [|done|done].
        eexists [_; _; _]. rewrite <- !app_assoc. split; [reflexivity|].
        simpl. lia.
      + rewrite Hc. split_and!; [|done|done].
        eexists [_; _]. rewrite <- !app_assoc. split; [reflexivity|].
        simpl. lia.
    - simpl. rewrite Hc, Hcl. split_and!; [|done|done].
      eexists [_]. split; [reflexivity|]. simpl. lia.
  }
  all: destruct (create_index_no_client index_name mapping client w)
         as (e' & Hr & Hc & Hcl); [intros c' w' Heq; congruence|].
  all: unfold bind;
       destruct (create_index_if_not_exists index_name mapping client w)
         as [[r|e''] w'] eqn:Hrun; simpl in *; [done|].
  all: rewrite Hc, Hcl; split_and!; [|done|done].
  all: exists []; rewrite app_nil_r; split; [done | simpl; lia].
Qed.

End IndexManager.

Lemma mem_create_then_exists : create_then_exists (S := Mem.cluster_state).
Proof.
  intros index body s r s'. simpl. unfold Mem.create, Mem.exists_.
  destruct (Mem.indices s !! index) eqn:E; [done|].
  intros [= _ <-]. simpl. by rewrite lookup_insert_eq.
Qed.

Lemma create_index_idempotent_witness :
  let once :=
    create_index_if_not_exists "contracts_meta" (VDict []) None in
  let twice := (once ;;; once) in
  (exists new,
     calls (snd (twice Mem.contracts)) = calls Mem.contracts ++ new /\
     length (List.filter is_create new) <= 1) /\
  cluster (snd (twice Mem.contracts)) = cluster (snd (once Mem.contracts)) /\
  (svc_exists "contracts_meta" (cluster Mem.contracts) = Ok true ->
   cluster (snd (once Mem.contracts)) = cluster Mem.contracts /\
   List.filter is_create (calls (snd (once Mem.contracts)))
     = List.filter is_create (calls Mem.contracts)).
Proof.
  apply (create_index_idempotent "contracts_meta" (VDict []) None
           Mem.contracts).
  exact mem_create_then_exists.
Defined.

(** ** The query runner *)

Section QueryRunner.
Context {S : Type} {svc : Service S} {interp : Interpreter}.
Implicit Types (w : World S) (c : OpenSearch).

Lemma comprehension_sources hits :
  forallb is_dict hits = true ->
  comprehension (fun hit => py_get hit "_source" (VDict [])) hits =
    Ok (map (fun hit => default (VDict []) (stored_fields hit)) hits).
Proof.
  induction hits as [|hit hits IH]; simpl; [done|].
  rewrite andb_true_iff. intros [Hd Hrest].
  destruct hit; try done. simpl. rewrite IH by done.
  unfold dict_get_or. by destruct (dict_get d "_source").
Qed.

Lemma hit_sources_spec resp hits :
  response_hits resp = Some hits ->
  hit_sources resp =
    Ok (VList (map (fun hit => default (VDict []) (stored_fields hit)) hits)).
Proof.
  unfold response_hits, hit_sources.
  destruct resp as [| | | | |top]; try done. simpl. unfold dict_get_or.
  destruct (dict_get top "hits") as [[| | | | |inner]|]; try done. simpl.
  unfold dict_get_or.
  destruct (dict_get inner "hits") as [[| | | |found|]|]; try done. simpl.
  destruct (forallb is_dict found) eqn:Hf; [|done]. intros [= ->].
  by rewrite comprehension_sources.
Qed.

(** One run with a resolved client. *)
Lemma query_index_run index_name query_body size client c w w1 :
  client_or_default client w = (Ok (Client c), w1) ->
  query_index index_name query_body size client w =
    (let body :=
       VDict [("size", match size with Some n => n | None => VInt 10 end);
              ("query", query_body)] in
     (match svc_search index_name body (cluster w) with
      | Ok resp => hit_sources resp
      | Raise e => Raise e
      end,
      record (Search c index_name body) w1)).
Proof.
  intros Hres.
  pose proof (client_or_default_frame _ _ _ _ Hres) as (_ & _ & _ & _ & Hcl).
  unfold query_index. unfold bind at 1. rewrite Hres.
  unfold bind, as_client, ret, client_search, lift. simpl. rewrite Hcl.
  by destruct (svc_search _ _ _).
Qed.

(** C6.  The runner submits the caller's query wrapped with the size bound
    (10 unless given) and, on a response of the shape of a search
    response, returns the list of what the hits hold under ["_source"], one
    entry per hit in the order of the response (an empty dictionary for a
    hit without stored fields); without hits the list is empty, and in no
    case is the result [None]. *)
Theorem query_index_returns_sources
    index_name query_body size client c w w1 resp hits :
  let bound := match size with Some n => n | None => VInt 10 end in
  let body := VDict [("size", bound); ("query", query_body)] in
  client_or_default client w = (Ok (Client c), w1) ->
  svc_search index_name body (cluster w) = Ok resp ->
  response_hits resp = Some hits ->
  exists sources,
    fst (query_index index_name query_body size client w)
      = Ok (VList sources) /\
    calls (snd (query_index index_name query_body size client w))
      = calls w ++ [Search c index_name body] /\
    length sources = length hits /\
    (forall i hit, hits !! i = Some hit ->
       sources !! i = Some (default (VDict []) (stored_fields hit))) /\
    (hits = [] -> sources = []) /\
    VList sources <> VNone.
Proof.
  intros bound body Hres Hsearch Hshape.
  exists (map (fun hit => default (VDict []) (stored_fields hit)) hits).
  rewrite (query_index_run _ _ _ _ _ _ _ Hres). cbn zeta.
  fold bound. fold body. rewrite Hsearch, (hit_sources_spec _ _ Hshape).
  apply client_or_default_frame in Hres as (_ & _ & _ & Hcalls & _).
  simpl. rewrite Hcalls. split_and!; [done | done | | | | done].
  - by rewrite length_map.
  - intros i hit Hi. by rewrite list_lookup_fmap, Hi.
  - by intros ->.
Qed.

End QueryRunner.

Lemma query_index_returns_sources_witness :
  exists sources,
    fst (query_index "contracts_meta" Mem.phrase_query None None Mem.indexed)
      = Ok (VList sources) /\
    calls (snd (query_index "contracts_meta" Mem.phrase_query None None
                  Mem.indexed))
      = calls Mem.indexed ++
          [Search Mem.client0 "contracts_meta"
             (VDict [("size", VInt 10); ("query", Mem.phrase_query)])] /\
    length sources = length [Mem.hit_of Mem.doc1; Mem.hit_of Mem.doc2] /\
    (forall i hit,
       [Mem.hit_of Mem.doc1; Mem.hit_of Mem.doc2] !! i = Some hit ->
       sources !! i = Some (default (VDict []) (stored_fields hit))) /\
    ([Mem.hit_of Mem.doc1; Mem.hit_of Mem.doc2] = [] -> sources = []) /\
    VList sources <> VNone.
Proof.
  apply (query_index_returns_sources "contracts_meta" Mem.phrase_query
           None None Mem.client0 Mem.indexed Mem.indexed
           (VDict [("hits",
                    VDict [("hits", VList [Mem.hit_of Mem.doc1;
                                           Mem.hit_of Mem.doc2])])])
           [Mem.hit_of Mem.doc1; Mem.hit_of Mem.doc2]);
    vm_compute; reflexivity.
Defined.

(** ** The batch and the queries after it *)

Section BatchThenQuery.
Context {S : Type} {svc : Service S} {interp : Interpreter}.
Implicit Types (w : World S) (c : OpenSearch).


End BatchThenQuery.


(** On the service with a refresh interval: the query after the loader
    sees the two contracts, and a batch written without a refresh would
    not have shown them. *)
Example refreshed_batch_is_searchable :
  fst (query_index "contracts_meta" Mem.phrase_query None None
         (snd (bulk_index_metadata "contracts_meta" [0; 1] None
                 Nrt.contracts)))
  = Ok (VList [VDict Mem.doc1; VDict Mem.doc2]).
Proof. vm_compute. reflexivity. Qed.

Example unrefreshed_batch_is_hidden :
  match svc_search "contracts_meta" Mem.phrase_query
          (snd (svc_bulk (map (action_of "contracts_meta")
                            [Mem.doc1; Mem.doc2])
                  false (cluster Nrt.contracts))) with
  | Ok resp => hit_sources resp
  | Raise e => Raise e
  end = Ok (VList []).
Proof. vm_compute. reflexivity. Qed.

(** ** The optional client argument *)

Section OptionalClient.
Context {S : Type} {svc : Service S} {interp : Interpreter}.
Implicit Types (w : World S) (c : OpenSearch).

(** C10.  In each of the three operations, a client argument that is
    omitted, [None] or any other false value is replaced by the client of
    [get_os_client]: the operation behaves as if the provider were called
    first and its handle passed explicitly. *)
Theorem falsy_client_uses_singleton
    client index_name mapping docs query_body size w :
  obj_truthy (supplied client) = false ->
  create_index_if_not_exists index_name mapping client w =
    (c <- get_os_client ;;
     create_index_if_not_exists index_name mapping (Some (Client c))) w /\
  bulk_index_metadata index_name docs client w =
    (c <- get_os_client ;;
     bulk_index_metadata index_name docs (Some (Client c))) w /\
  query_index index_name query_body size client w =
    (c <- get_os_client ;;
     query_index index_name query_body size (Some (Client c))) w.
Proof.
  intros Hf.
  unfold create_index_if_not_exists, bulk_index_metadata, query_index.
  split_and!.
  all: erewrite bind_cong by (by apply client_or_default_falsy).
  all: rewrite bind_assoc; apply bind_ext; intros c w'; reflexivity.
Qed.

End OptionalClient.

Lemma falsy_client_uses_singleton_witness :
  create_index_if_not_exists "contracts_meta" (VDict []) (Some (Val (VInt 0)))
      Mem.contracts =
    (c <- get_os_client ;;
     create_index_if_not_exists "contracts_meta" (VDict [])
       (Some (Client c))) Mem.contracts /\
  bulk_index_metadata "contracts_meta" [0; 1] (Some (Val (VInt 0)))
      Mem.contracts =
    (c <- get_os_client ;;
     bulk_index_metadata "contracts_meta" [0; 1] (Some (Client c)))
      Mem.contracts /\
  query_index "contracts_meta" Mem.phrase_query None (Some (Val (VInt 0)))
      Mem.contracts =
    (c <- get_os_client ;;
     query_index "contracts_meta" Mem.phrase_query None (Some (Client c)))
      Mem.contracts.
Proof.
  apply (falsy_client_uses_singleton (Some (Val (VInt 0)))). reflexivity.
Defined.

(** ** The module's example, run on the in-memory service *)

Section Scenario.

Example scenario_result :
  fst (query_index "contracts_meta" Mem.phrase_query (Some (VInt 5)) None
         Mem.indexed)
  = Ok (VList [VDict Mem.doc1; VDict Mem.doc2]).
Proof. vm_compute. reflexivity. Qed.

Example scenario_output :
  stdout Mem.indexed =
    ["Created index 'contracts_meta'";
     "Indexed 2 documents into 'contracts_meta'"].
Proof. vm_compute. reflexivity. Qed.

Example scenario_calls :
  calls Mem.indexed =
    [IndicesExists Mem.client0 "contracts_meta";
     IndicesCreate Mem.client0 "contracts_meta" (VDict []);
     HelpersBulk Mem.client0
       [[("_op_type", VStr "index"); ("_index", VStr "contracts_meta");
         ("_id", VStr "C-001"); ("contract_id", VStr "C-001");
         ("title", VStr "Alpha-Beta Agreement")];
        [("_op_type", VStr "index"); ("_index", VStr "contracts_meta");
         ("_id", VStr "C-002"); ("contract_id", VStr "C-002");
         ("title", VStr "Gamma Licence")]]
       true].
Proof. vm_compute. reflexivity. Qed.

(** A document's own control fields end up in the action. *)
Example action_of_doc_ctl :
  action_of "contracts_meta" Mem.doc_ctl =
    [("_op_type", VStr "index"); ("_index", VStr "elsewhere");
     ("_id", VStr "mine"); ("contract_id", VStr "C-003")].
Proof. reflexivity. Qed.

(** A port that is no integer literal stops the provider, and the failure
    is not cached. *)
Example bad_port_raises :
  get_os_client
    (Mem.start (<["OPENSEARCH_PORT" := "https"]> Mem.env_full) [])
  = (Raise ValueError,
     Mem.start (<["OPENSEARCH_PORT" := "https"]> Mem.env_full) []).
Proof. vm_compute. reflexivity. Qed.

Example int_of_str_samples :
  int_of_str " 9200 " = Ok 9200%Z /\ int_of_str "+4_43" = Ok 443%Z /\
  int_of_str "-1" = Ok (-1)%Z /\ int_of_str "" = Raise ValueError /\
  int_of_str "4__3" = Raise ValueError /\ int_of_str "9200/" = Raise ValueError.
Proof. by vm_compute. Qed.

(** The default limit on the number of digits: 4300 are accepted, one
    more is refused. *)
Example int_of_str_digit_limit :
  (exists z, int_of_str (string_of_list_ascii (repeat "1"%char 4300)) = Ok z)
  /\ int_of_str (string_of_list_ascii (repeat "1"%char 4301))
     = Raise ValueError.
Proof.
  split; [|by vm_compute].
  destruct (int_of_str _) as [z|e] eqn:E; [by exists z|].
  vm_compute in E. discriminate.
Qed.

(** Responses of another shape: missing keys give an empty list, a
    ["hits"] that cannot be iterated or searched gives an exception. *)
Example hit_sources_samples :
  hit_sources (VDict []) = Ok (VList []) /\
  hit_sources (VDict [("hits", VDict [])]) = Ok (VList []) /\
  hit_sources (VDict [("hits", VDict [("hits", VList [VDict []])])])
    = Ok (VList [VDict []]) /\
  hit_sources (VDict [("hits", VDict [("hits", VNone)])]) = Raise TypeError /\
  hit_sources (VDict [("hits", VNone)]) = Raise AttributeError.
Proof. by vm_compute. Qed.

(** A true value that is no client is used as it is, and fails. *)
Example truthy_non_client :
  fst (query_index "contracts_meta" Mem.phrase_query None
         (Some (Val (VStr "client"))) Mem.indexed)
  = Raise AttributeError.
Proof. vm_compute. reflexivity. Qed.

End Scenario.

(** ** More on the client provider *)

Section ProviderFurther.
Context {S : Type} {svc : Service S} {interp : Interpreter}.
Implicit Types (w : World S) (c : OpenSearch).

Lemma get_os_client_next_id w :
  next_id w <= next_id (snd (get_os_client w)) <= Datatypes.S (next_id w).
Proof.
  destruct (lru_slot w) as [c0|] eqn:Hc.
  - rewrite (get_os_client_cached w c0) by done. simpl. lia.
  - rewrite get_os_client_first by done.
    destruct (port_of _); [|simpl; lia].
    destruct (environ w !! "OPENSEARCH_HOST"); simpl; lia.
Qed.

Lemma get_os_client_raise_inv w e w' :
  get_os_client w = (Raise e, w') ->
  w' = w /\ lru_slot w = None /\
  (port_of (environ w !! "OPENSEARCH_PORT") = Raise e \/
   (exists p, port_of (environ w !! "OPENSEARCH_PORT") = Ok p) /\
   environ w !! "OPENSEARCH_HOST" = None /\ e = TypeError).
Proof.
  destruct (lru_slot w) as [c0|] eqn:Hc.
  - by rewrite (get_os_client_cached w c0).
  - rewrite get_os_client_first by done.
    destruct (port_of _) as [p|e0] eqn:Hp.
    + destruct (environ w !! "OPENSEARCH_HOST"); [done|].
      intros [= <- <-]. split_and!; [done | done |]. right. eauto.
    + intros [= <- <-]. split_and!; [done | done |]. by left.
Qed.

(** X1.  The provider can fail on a first use only, and in two ways only:
    the port variable holds a string that [int] refuses, and the exception
    is that of [int]; or the port is acceptable, the host variable is
    unset, and the exception is the [TypeError] of the constructor.  Either
    way the process is left exactly as it was: nothing cached, nothing
    constructed, no call made. *)
Theorem get_os_client_failure_modes w e w' :
  get_os_client w = (Raise e, w') ->
  w' = w /\ lru_slot w = None /\
  ((exists s, environ w !! "OPENSEARCH_PORT" = Some s /\
              py_int s = Raise e) \/
   (exists p, port_of (environ w !! "OPENSEARCH_PORT") = Ok p) /\
   environ w !! "OPENSEARCH_HOST" = None /\ e = TypeError).
Proof.
  intros Hrun.
  apply get_os_client_raise_inv in Hrun as (-> & Hslot & [Hport | Hhost]).
  - split_and!; [done | done |]. left. unfold port_of in Hport.
    destruct (environ w !! "OPENSEARCH_PORT") as [s|]; [eauto | done].
  - split_and!; [done | done |]. by right.
Qed.

(** X2.  Every handle the provider constructs uses TLS with certificate
    verification, the requests-based connection class and a timeout of 30;
    its port is 443 when the port variable is unset; it is a new object. *)
Theorem get_os_client_transport_settings w c w' :
  lru_slot w = None ->
  get_os_client w = (Ok c, w') ->
  use_ssl c = true /\ verify_certs c = true /\ timeout c = 30%Z /\
  connection_class c = RequestsHttpConnection /\
  (environ w !! "OPENSEARCH_PORT" = None -> port c = 443%Z) /\
  client_id c = next_id w /\ next_id w' = Datatypes.S (next_id w).
Proof.
  intros Hslot. rewrite get_os_client_first by done.
  destruct (port_of _) as [p|e] eqn:Hp; [|done].
  destruct (environ w !! "OPENSEARCH_HOST"); [|done].
  intros [= <- <-]. simpl.
  split_and!; try done. intros Hunset. rewrite Hunset in Hp.
  by injection Hp as <-.
Qed.

(** X3.  A failure is not cached: after a failed call, a call under an
    environment that has a host and an acceptable port reads that
    environment, succeeds, and caches the handle. *)
Theorem get_os_client_retry_after_failure w e w' env h p :
  get_os_client w = (Raise e, w') ->
  env !! "OPENSEARCH_HOST" = Some h ->
  port_of (env !! "OPENSEARCH_PORT") = Ok p ->
  exists c w'',
    get_os_client (set_environ env w') = (Ok c, w'') /\
    host c = Some h /\ port c = p /\
    lru_slot w'' = Some c.
Proof.
  intros Hrun Hh Hp.
  apply get_os_client_raise_inv in Hrun as (-> & Hslot & _).
  rewrite get_os_client_first by done. simpl. rewrite Hp, Hh.
  eexists _, _. split; [reflexivity|]. by simpl.
Qed.

End ProviderFurther.

Lemma get_os_client_failure_modes_witness :
  Mem.start ∅ [] = Mem.start ∅ [] /\
  lru_slot (Mem.start ∅ []) = None /\
  ((exists s, environ (Mem.start ∅ []) !! "OPENSEARCH_PORT" = Some s /\
              py_int s = Raise TypeError) \/
   (exists p, port_of (environ (Mem.start ∅ []) !! "OPENSEARCH_PORT")
              = Ok p) /\
   environ (Mem.start ∅ []) !! "OPENSEARCH_HOST" = None /\
   TypeError = TypeError).
Proof.
  apply (get_os_client_failure_modes (Mem.start ∅ [])).
  vm_compute. reflexivity.
Defined.

Lemma get_os_client_transport_settings_witness :
  use_ssl Mem.client0 = true /\ verify_certs Mem.client0 = true /\
  timeout Mem.client0 = 30%Z /\
  connection_class Mem.client0 = RequestsHttpConnection /\
  (environ Mem.contracts !! "OPENSEARCH_PORT" = None ->
   port Mem.client0 = 443%Z) /\
  client_id Mem.client0 = next_id Mem.contracts /\
  next_id (snd (get_os_client Mem.contracts))
    = Datatypes.S (next_id Mem.contracts).
Proof.
  apply (get_os_client_transport_settings Mem.contracts Mem.client0
           (snd (get_os_client Mem.contracts))).
  - reflexivity.
  - vm_compute. reflexivity.
Defined.

Lemma get_os_client_retry_after_failure_witness :
  exists c w'',
    get_os_client (set_environ Mem.env_full (Mem.start ∅ []))
      = (Ok c, w'') /\
    host c = Some "search.example.org" /\ port c = 443%Z /\
    lru_slot w'' = Some c.
Proof.
  apply (get_os_client_retry_after_failure (Mem.start ∅ []) TypeError
           (Mem.start ∅ []) Mem.env_full "search.example.org" 443%Z).
  - vm_compute. reflexivity.
  - reflexivity.
  - reflexivity.
Defined.

(** ** More on the index manager *)

Section IndexManagerFurther.
Context {S : Type} {svc : Service S} {interp : Interpreter}.
Implicit Types (w : World S) (c : OpenSearch).

(** X4.  On a missing index the manager checks, creates the index with
    the mapping it was given, prints that it created it and returns
    [None]; the service is in the state the create call left. *)
Theorem create_index_creates_missing index_name mapping client c w w1 r s' :
  client_or_default client w = (Ok (Client c), w1) ->
  svc_exists index_name (cluster w) = Ok false ->
  svc_create index_name mapping (cluster w) = (Ok r, s') ->
  fst (create_index_if_not_exists index_name mapping client w) = Ok VNone /\
  calls (snd (create_index_if_not_exists index_name mapping client w)) =
    calls w ++ [IndicesExists c index_name;
                IndicesCreate c index_name mapping] /\
  stdout (snd (create_index_if_not_exists index_name mapping client w)) =
    stdout w ++ [("Created index '" ++ index_name ++ "'")%string] /\
  cluster (snd (create_index_if_not_exists index_name mapping client w)) = s'.
Proof.
  intros Hres Hex Hcr. rewrite (create_index_run _ _ _ _ _ _ Hres).
  apply client_or_default_frame in Hres as (_ & _ & Hout & Hcalls & _).
  cbn zeta. rewrite Hex, Hcr. simpl. rewrite Hout, Hcalls.
  by rewrite <- app_assoc.
Qed.

(** X5.  On an index that exists the manager only checks: it prints that
    the index already exists, returns [None], and neither calls create nor
    changes the service. *)
Theorem create_index_existing index_name mapping client c w w1 :
  client_or_default client w = (Ok (Client c), w1) ->
  svc_exists index_name (cluster w) = Ok true ->
  fst (create_index_if_not_exists index_name mapping client w) = Ok VNone /\
  calls (snd (create_index_if_not_exists index_name mapping client w)) =
    calls w ++ [IndicesExists c index_name] /\
  stdout (snd (create_index_if_not_exists index_name mapping client w)) =
    stdout w ++ [("Index '" ++ index_name ++ "' already exists.")%string] /\
  cluster (snd (create_index_if_not_exists index_name mapping client w))
    = cluster w.
Proof.
  intros Hres Hex. rewrite (create_index_run _ _ _ _ _ _ Hres).
  apply client_or_default_frame in Hres as (_ & _ & Hout & Hcalls & Hcl).
  cbn zeta. rewrite Hex. simpl. by rewrite Hout, Hcalls, Hcl.
Qed.

(** X6.  An exception of the existence check leaves the manager as it
    is: no create call is made, nothing is printed, the service is
    unchanged. *)
Theorem create_index_check_fails index_name mapping client c w w1 e :
  client_or_default client w = (Ok (Client c), w1) ->
  svc_exists index_name (cluster w) = Raise e ->
  fst (create_index_if_not_exists index_name mapping client w) = Raise e /\
  calls (snd (create_index_if_not_exists index_name mapping client w)) =
    calls w ++ [IndicesExists c index_name] /\
  stdout (snd (create_index_if_not_exists index_name mapping client w))
    = stdout w /\
  cluster (snd (create_index_if_not_exists index_name mapping client w))
    = cluster w.
Proof.
  intros Hres Hex. rewrite (create_index_run _ _ _ _ _ _ Hres).
  apply client_or_default_frame in Hres as (_ & _ & Hout & Hcalls & Hcl).
  cbn zeta. rewrite Hex. simpl. by rewrite Hout, Hcalls, Hcl.
Qed.

(** X7.  An exception of the create call leaves the manager as it is, and
    the line that reports a creation is not printed. *)
Theorem create_index_create_fails index_name mapping client c w w1 e s' :
  client_or_default client w = (Ok (Client c), w1) ->
  svc_exists index_name (cluster w) = Ok false ->
  svc_create index_name mapping (cluster w) = (Raise e, s') ->
  fst (create_index_if_not_exists index_name mapping client w) = Raise e /\
  calls (snd (create_index_if_not_exists index_name mapping client w)) =
    calls w ++ [IndicesExists c index_name;
                IndicesCreate c index_name mapping] /\
  stdout (snd (create_index_if_not_exists index_name mapping client w))
    = stdout w /\
  cluster (snd (create_index_if_not_exists index_name mapping client w)) = s'.
Proof.
  intros Hres Hex Hcr. rewrite (create_index_run _ _ _ _ _ _ Hres).
  apply client_or_default_frame in Hres as (_ & _ & Hout & Hcalls & _).
  cbn zeta. rewrite Hex, Hcr. simpl. rewrite Hout, Hcalls.
  by rewrite <- app_assoc.
Qed.

End IndexManagerFurther.

Lemma create_index_creates_missing_witness :
  fst (create_index_if_not_exists "contracts_meta" (VDict []) None
         Mem.contracts) = Ok VNone /\
  calls (snd (create_index_if_not_exists "contracts_meta" (VDict []) None
                Mem.contracts)) =
    calls Mem.contracts ++
      [IndicesExists Mem.client0 "contracts_meta";
       IndicesCreate Mem.client0 "contracts_meta" (VDict [])] /\
  stdout (snd (create_index_if_not_exists "contracts_meta" (VDict []) None
                 Mem.contracts)) =
    stdout Mem.contracts ++
      [("Created index '" ++ "contracts_meta" ++ "'")%string] /\
  cluster (snd (create_index_if_not_exists "contracts_meta" (VDict []) None
                  Mem.contracts))
    = Mem.mkCluster (<["contracts_meta" := VDict []]> ∅) [].
Proof.
  eapply (create_index_creates_missing "contracts_meta" (VDict []) None
            Mem.client0 Mem.contracts);
    vm_compute; reflexivity.
Defined.

Lemma create_index_existing_witness :
  fst (create_index_if_not_exists "contracts_meta" (VDict []) None
         Mem.indexed) = Ok VNone /\
  calls (snd (create_index_if_not_exists "contracts_meta" (VDict []) None
                Mem.indexed)) =
    calls Mem.indexed ++ [IndicesExists Mem.client0 "contracts_meta"] /\
  stdout (snd (create_index_if_not_exists "contracts_meta" (VDict []) None
                 Mem.indexed)) =
    stdout Mem.indexed ++
      [("Index '" ++ "contracts_meta" ++ "' already exists.")%string] /\
  cluster (snd (create_index_if_not_exists "contracts_meta" (VDict []) None
                  Mem.indexed))
    = cluster Mem.indexed.
Proof.
  eapply (create_index_existing "contracts_meta" (VDict []) None
            Mem.client0 Mem.indexed);
    vm_compute; reflexivity.
Defined.

Lemma create_index_check_fails_witness :
  fst (create_index_if_not_exists "contracts_meta" (VDict []) None
         (Flaky.contracts true false false false))
    = Raise (LibraryError "ConnectionError") /\
  calls (snd (create_index_if_not_exists "contracts_meta" (VDict []) None
                (Flaky.contracts true false false false))) =
    calls (Flaky.contracts true false false false) ++
      [IndicesExists Mem.client0 "contracts_meta"] /\
  stdout (snd (create_index_if_not_exists "contracts_meta" (VDict []) None
                 (Flaky.contracts true false false false)))
    = stdout (Flaky.contracts true false false false) /\
  cluster (snd (create_index_if_not_exists "contracts_meta" (VDict []) None
                  (Flaky.contracts true false false false)))
    = cluster (Flaky.contracts true false false false).
Proof.
  eapply (create_index_check_fails "contracts_meta" (VDict []) None
            Mem.client0 (Flaky.contracts true false false false));
    vm_compute; reflexivity.
Defined.

Lemma create_index_create_fails_witness :
  fst (create_index_if_not_exists "contracts_meta" (VDict []) None
         (Flaky.contracts false true false false))
    = Raise (LibraryError "AuthorizationException") /\
  calls (snd (create_index_if_not_exists "contracts_meta" (VDict []) None
                (Flaky.contracts false true false false))) =
    calls (Flaky.contracts false true false false) ++
      [IndicesExists Mem.client0 "contracts_meta";
       IndicesCreate Mem.client0 "contracts_meta" (VDict [])] /\
  stdout (snd (create_index_if_not_exists "contracts_meta" (VDict []) None
                 (Flaky.contracts false true false false)))
    = stdout (Flaky.contracts false true false false) /\
  cluster (snd (create_index_if_not_exists "contracts_meta" (VDict []) None
                  (Flaky.contracts false true false false)))
    = cluster (Flaky.contracts false true false false).
Proof.
  eapply (create_index_create_fails "contracts_meta" (VDict []) None
            Mem.client0 (Flaky.contracts false true false false));
    vm_compute; reflexivity.
Defined.

(** ** More on the bulk loader *)

Section BulkLoaderFurther.
Context {S : Type} {svc : Service S} {interp : Interpreter}.
Implicit Types (w : World S) (c : OpenSearch).

Lemma dict_get_app d1 d2 k :
  dict_get (d1 ++ d2) k =
    match dict_get d1 k with Some v => Some v | None => dict_get d2 k end.
Proof.
  induction d1 as [|[k' v'] d1 IH]; simpl; [done|].
  by destruct (String.eqb k' k).
Qed.

Lemma dict_set_fresh k v d :
  dict_get d k = None -> dict_set k v d = d ++ [(k, v)].
Proof.
  induction d as [|[k' v'] d IH]; simpl; [done|].
  destruct (String.eqb k' k); [done|]. intros Hd. by rewrite IH.
Qed.

(** Updating with a dictionary that shares no key with the base appends
    it. *)
Lemma dict_update_disjoint base extra :
  dict_wf extra ->
  (forall k v, dict_get extra k = Some v -> dict_get base k = None) ->
  dict_update base extra = base ++ extra.
Proof.
  rewrite dict_wf_NoDup. unfold dict_update. revert base.
  induction extra as [|[k0 v0] extra IH]; intros base Hwf Hdis; simpl.
  - by rewrite app_nil_r.
  - simpl in Hwf. apply NoDup_cons in Hwf as [Hfresh Hwf].
    apply dict_get_None_keys in Hfresh.
    rewrite dict_set_fresh.
    2: { apply (Hdis k0 v0). simpl. by rewrite String.eqb_refl. }
    rewrite IH; [by rewrite <- app_assoc | done |].
    intros k v Hk. rewrite dict_get_app.
    assert (Hne : String.eqb k0 k = false).
    { apply String.eqb_neq. intros ->. congruence. }
    rewrite (Hdis k v); simpl; by rewrite Hne.
Qed.

(** X8.  The action of a document without control fields of its own is
    the three control fields followed by the document, field for field. *)
Theorem action_of_plain_document index_name doc :
  dict_wf doc ->
  dict_get doc "_op_type" = None ->
  dict_get doc "_index" = None ->
  dict_get doc "_id" = None ->
  action_of index_name doc =
    [("_op_type", VStr "index"); ("_index", VStr index_name);
     ("_id", derived_id doc)] ++ doc.
Proof.
  intros Hwf Hop Hix Hid. unfold action_of, dict_display.
  change (dict_update [] [("_op_type", VStr "index");
                          ("_index", VStr index_name);
                          ("_id", derived_id doc)])
    with [("_op_type", VStr "index"); ("_index", VStr index_name);
          ("_id", derived_id doc)].
  rewrite dict_update_disjoint; [done | done |].
  intros k v Hk. cbn -[String.eqb].
  destruct (String.eqb "_op_type" k) eqn:E1;
    [apply String.eqb_eq in E1; congruence|].
  destruct (String.eqb "_index" k) eqn:E2;
    [apply String.eqb_eq in E2; congruence|].
  destruct (String.eqb "_id" k) eqn:E3;
    [apply String.eqb_eq in E3; congruence|].
  done.
Qed.

(** X9.  Whatever the document holds, its action has unique keys, and its
    keys are the three control fields together with the keys of the
    document. *)
Theorem action_of_fields index_name doc :
  dict_wf doc ->
  dict_wf (action_of index_name doc) /\
  forall k,
    dict_mem (action_of index_name doc) k =
      is_control_field k || dict_mem doc k.
Proof.
  intros Hwf. split; [apply action_of_wf|]. intros k.
  unfold dict_mem. rewrite action_of_lookup by done.
  destruct (dict_get doc k); [by rewrite orb_true_r|].
  rewrite orb_false_r. unfold is_control_field. cbn -[String.eqb].
  rewrite !(String.eqb_sym k).
  by destruct (String.eqb "_op_type" k), (String.eqb "_index" k),
    (String.eqb "_id" k).
Qed.

(** X10.  With no documents the loader still calls the batch helper, with
    an empty list of actions and a refresh, allocates nothing, and reports
    0 documents when the helper returns. *)
Theorem bulk_index_metadata_empty index_name client c w w1 :
  client_or_default client w = (Ok (Client c), w1) ->
  calls (snd (bulk_index_metadata index_name [] client w)) =
    calls w ++ [HelpersBulk c [] true] /\
  heap (snd (bulk_index_metadata index_name [] client w)) = heap w /\
  (forall r, fst (svc_bulk [] true (cluster w)) = Ok r ->
     stdout (snd (bulk_index_metadata index_name [] client w)) =
       stdout w ++ [("Indexed 0 documents into '" ++ index_name ++ "'")%string]).
Proof.
  intros Hres.
  pose proof (client_or_default_frame _ _ _ _ Hres)
    as (_ & Hh & Hout & Hcalls & Hcl).
  assert (Hrun :
    bulk_index_metadata index_name [] client w =
      (let w2 := set_cluster (snd (svc_bulk [] true (cluster w)))
                   (record (HelpersBulk c [] true) w1) in
       match fst (svc_bulk [] true (cluster w)) with
       | Ok _ =>
           (Ok VNone,
            emit ("Indexed 0 documents into '" ++ index_name ++ "'") w2)
       | Raise e => (Raise e, w2)
       end)).
  { unfold bulk_index_metadata. unfold bind at 1. rewrite Hres.
    unfold helpers_bulk, as_client, print. unfold bind, ret. simpl.
    rewrite Hcl.
    by destruct (svc_bulk [] true (cluster w)) as [[r|e] s']. }
  rewrite Hrun. cbn zeta.
  destruct (fst (svc_bulk [] true (cluster w))) as [r|e]; simpl;
    rewrite Hh, Hcalls; (split_and!; [done | done |]); intros r' [=].
  by rewrite Hout.
Qed.

(** X11.  An exception of the batch helper leaves the loader as it is: the
    line that reports the count is not printed, the helper has been called
    once, and the service is in the state the helper left, with nothing
    undone. *)
Theorem bulk_index_metadata_helper_fails
    index_name docs ds client c w w1 e :
  client_or_default client w = (Ok (Client c), w1) ->
  designate w docs ds ->
  fst (svc_bulk (map (action_of index_name) ds) true (cluster w)) = Raise e ->
  fst (bulk_index_metadata index_name docs client w) = Raise e /\
  stdout (snd (bulk_index_metadata index_name docs client w)) = stdout w /\
  calls (snd (bulk_index_metadata index_name docs client w)) =
    calls w ++ [HelpersBulk c (map (action_of index_name) ds) true] /\
  cluster (snd (bulk_index_metadata index_name docs client w)) =
    snd (svc_bulk (map (action_of index_name) ds) true (cluster w)).
Proof.
  intros Hres Hd Hfail.
  destruct (bulk_index_metadata_run index_name _ _ _ _ _ _ Hres Hd)
    as (h' & _ & ->).
  apply client_or_default_frame in Hres as (_ & _ & Hout & Hcalls & _).
  cbn zeta. rewrite Hfail. simpl. by rewrite Hout, Hcalls.
Qed.

End BulkLoaderFurther.

Lemma action_of_plain_document_witness :
  action_of "contracts_meta" Mem.doc1 =
    [("_op_type", VStr "index"); ("_index", VStr "contracts_meta");
     ("_id", derived_id Mem.doc1)] ++ Mem.doc1.
Proof.
  apply (action_of_plain_document "contracts_meta" Mem.doc1); reflexivity.
Defined.

Lemma action_of_fields_witness :
  dict_wf (action_of "contracts_meta" Mem.doc_ctl) /\
  forall k,
    dict_mem (action_of "contracts_meta" Mem.doc_ctl) k =
      is_control_field k || dict_mem Mem.doc_ctl k.
Proof.
  apply (action_of_fields "contracts_meta" Mem.doc_ctl). reflexivity.
Defined.

Lemma bulk_index_metadata_empty_witness :
  calls (snd (bulk_index_metadata "contracts_meta" [] None Mem.contracts)) =
    calls Mem.contracts ++ [HelpersBulk Mem.client0 [] true] /\
  heap (snd (bulk_index_metadata "contracts_meta" [] None Mem.contracts))
    = heap Mem.contracts /\
  (forall r, fst (svc_bulk [] true (cluster Mem.contracts)) = Ok r ->
     stdout (snd (bulk_index_metadata "contracts_meta" [] None
                    Mem.contracts)) =
       stdout Mem.contracts ++
         [("Indexed 0 documents into '" ++ "contracts_meta" ++ "'")%string]).
Proof.
  eapply (bulk_index_metadata_empty "contracts_meta" None Mem.client0
            Mem.contracts).
  vm_compute. reflexivity.
Defined.

Lemma bulk_index_metadata_helper_fails_witness :
  fst (bulk_index_metadata "contracts_meta" [0; 1] None
         (Flaky.contracts false false true false))
    = Raise (LibraryError "BulkIndexError") /\
  stdout (snd (bulk_index_metadata "contracts_meta" [0; 1] None
                 (Flaky.contracts false false true false)))
    = stdout (Flaky.contracts false false true false) /\
  calls (snd (bulk_index_metadata "contracts_meta" [0; 1] None
                (Flaky.contracts false false true false))) =
    calls (Flaky.contracts false false true false) ++
      [HelpersBulk Mem.client0
         (map (action_of "contracts_meta") [Mem.doc1; Mem.doc2]) true] /\
  cluster (snd (bulk_index_metadata "contracts_meta" [0; 1] None
                  (Flaky.contracts false false true false))) =
    snd (svc_bulk (map (action_of "contracts_meta") [Mem.doc1; Mem.doc2])
           true (cluster (Flaky.contracts false false true false))).
Proof.
  eapply (bulk_index_metadata_helper_fails "contracts_meta" [0; 1]
            [Mem.doc1; Mem.doc2] None Mem.client0
            (Flaky.contracts false false true false)).
  - vm_compute. reflexivity.
  - repeat constructor.
  - vm_compute. reflexivity.
Defined.

(** ** One client for every call *)

Section OneClient.
Context {S : Type} {svc : Service S} {interp : Interpreter}.
Implicit Types (w : World S) (c : OpenSearch).

Lemma client_or_default_next_id client w :
  next_id w <= next_id (snd (client_or_default client w))
            <= Datatypes.S (next_id w).
Proof.
  destruct (obj_truthy (supplied client)) eqn:Ht.
  - rewrite client_or_default_truthy by done. simpl. lia.
  - rewrite client_or_default_falsy by done. unfold bind, ret.
    pose proof (get_os_client_next_id w) as Hn.
    by destruct (get_os_client w) as [[c|e] w1].
Qed.

Lemma served_by_trans c w1 w w2 w3 :
  served_by c w1 w w2 -> served_by c w2 w2 w3 -> served_by c w1 w w3.
Proof.
  intros (Hs & Hn & He & Hh & new & Hc & Hall)
         (Hs' & Hn' & He' & Hh' & new' & Hc' & Hall').
  unfold served_by. split_and!; [congruence.. | by etrans |].
  exists (new ++ new'). split; [|by apply Forall_app].
  by rewrite Hc', Hc, <- app_assoc.
Qed.

Lemma create_index_served index_name mapping client c w w1 :
  client_or_default client w = (Ok (Client c), w1) ->
  served_by c w1 w (snd (create_index_if_not_exists index_name mapping
                           client w)).
Proof.
  intros Hres. rewrite (create_index_run _ _ _ _ _ _ Hres).
  apply client_or_default_frame in Hres as (Henv & Hh & _ & Hcalls & _).
  cbn zeta. unfold served_by.
  destruct (svc_exists index_name (cluster w)) as [[|]|e]; simpl.
  2: destruct (fst (svc_create index_name mapping (cluster w))); simpl.
  all: rewrite Hh, Hcalls; split_and!; try done.
  all: eexists; split; [by rewrite <- ?app_assoc | by repeat constructor].
Qed.

Lemma bulk_index_metadata_served index_name docs ds client c w w1 :
  client_or_default client w = (Ok (Client c), w1) ->
  designate w docs ds ->
  served_by c w1 w (snd (bulk_index_metadata index_name docs client w)).
Proof.
  intros Hres Hd.
  destruct (bulk_index_metadata_run index_name _ _ _ _ _ _ Hres Hd)
    as (h' & Hsub & ->).
  apply client_or_default_frame in Hres as (Henv & Hh & _ & Hcalls & _).
  cbn zeta. unfold served_by.
  destruct (fst (svc_bulk _ _ _)); simpl.
  all: rewrite Hcalls; split_and!; try done.
  all: eexists; split; [done | by repeat constructor].
Qed.

Lemma query_index_served index_name query_body size client c w w1 :
  client_or_default client w = (Ok (Client c), w1) ->
  served_by c w1 w (snd (query_index index_name query_body size client w)).
Proof.
  intros Hres. rewrite (query_index_run _ _ _ _ _ _ _ Hres).
  apply client_or_default_frame in Hres as (Henv & Hh & _ & Hcalls & _).
  cbn zeta. unfold served_by. simpl. rewrite Hh, Hcalls.
  split_and!; try done.
  eexists; split; [done | by repeat constructor].
Qed.

(** X12.  An operation that is given a client uses that client for every
    call it makes and leaves the provider alone: nothing is cached or
    constructed, and the environment is not touched. *)
Theorem explicit_client_is_used
    c index_name mapping docs ds query_body size w :
  designate w docs ds ->
  served_by c w w
    (snd (create_index_if_not_exists index_name mapping (Some (Client c))
            w)) /\
  served_by c w w
    (snd (bulk_index_metadata index_name docs (Some (Client c)) w)) /\
  served_by c w w
    (snd (query_index index_name query_body size (Some (Client c)) w)).
Proof.
  intros Hd.
  assert (Hres : client_or_default (Some (Client c)) w = (Ok (Client c), w))
    by done.
  split_and!.
  - by apply create_index_served.
  - by eapply bulk_index_metadata_served.
  - by apply query_index_served.
Qed.

(** X13.  Once the provider has cached a client, every operation called
    without a client (or with a false one) makes all its calls through the
    cached client and leaves it in the cache; no second client is
    constructed. *)
Theorem cached_client_is_reused
    c client index_name mapping docs ds query_body size w :
  lru_slot w = Some c ->
  obj_truthy (supplied client) = false ->
  designate w docs ds ->
  served_by c w w
    (snd (create_index_if_not_exists index_name mapping client w)) /\
  served_by c w w
    (snd (bulk_index_metadata index_name docs client w)) /\
  served_by c w w
    (snd (query_index index_name query_body size client w)).
Proof.
  intros Hslot Hf Hd.
  assert (Hres : client_or_default client w = (Ok (Client c), w)).
  { rewrite client_or_default_falsy by done. unfold bind.
    by rewrite (get_os_client_cached w c). }
  split_and!.
  - by apply create_index_served.
  - by eapply bulk_index_metadata_served.
  - by apply query_index_served.
Qed.

(** X14.  The three operations in a row, with whatever client argument:
    at most one client is constructed, all the calls made go through one
    and the same client, the environment is not touched, and the documents
    are as they were. *)
Theorem load_and_query_one_client
    index_name mapping docs ds query_body size client w :
  designate w docs ds ->
  next_id (snd (load_and_query index_name mapping docs query_body size
                  client w)) <= Datatypes.S (next_id w) /\
  environ (snd (load_and_query index_name mapping docs query_body size
                  client w)) = environ w /\
  designate (snd (load_and_query index_name mapping docs query_body size
                    client w)) docs ds /\
  exists new,
    calls (snd (load_and_query index_name mapping docs query_body size
                  client w)) = calls w ++ new /\
    forall k1 k2, k1 ∈ new -> k2 ∈ new -> call_client k1 = call_client k2.
Proof.
  intros Hd.
  pose proof (client_or_default_next_id client w) as Hnext.
  destruct (client_or_default client w) as [[[v|c]|e] w1] eqn:Hres.
  2: {
    simpl in Hnext.
    cut (served_by c w1 w
           (snd (load_and_query index_name mapping docs query_body size
                   client w))).
    { intros (_ & Hn & He & Hh & new & Hc & Hall). split_and!.
      - lia.
      - done.
      - by eapply designate_weaken.
      - exists new. split; [done|]. intros k1 k2 H1 H2.
        rewrite Forall_forall in Hall. by rewrite (Hall k1), (Hall k2). }
    pose proof (create_index_served index_name mapping _ _ _ _ Hres) as H1.
    unfold load_and_query. unfold bind at 1.
    destruct (create_index_if_not_exists index_name mapping client w)
      as [[r2|e2] w2]; simpl in H1; [|done].
    assert (Hres2 : client_or_default client w2 = (Ok (Client c), w2)).
    { eapply client_or_default_again; [exact Hres|]. apply H1. }
    assert (Hd2 : designate w2 docs ds).
    { eapply designate_weaken; [|exact Hd]. apply H1. }
    pose proof (bulk_index_metadata_served index_name _ _ _ _ _ _ Hres2 Hd2)
      as H2.
    eapply served_by_trans; [exact H1|]. unfold bind at 1.
    destruct (bulk_index_metadata index_name docs client w2)
      as [[r3|e3] w3]; simpl in H2; [|done].
    assert (Hres3 : client_or_default client w3 = (Ok (Client c), w3)).
    { eapply client_or_default_again; [exact Hres2|]. apply H2. }
    eapply served_by_trans; [exact H2|].
    by apply query_index_served. }
  all: simpl in Hnext.
  all: pose proof (client_or_default_frame _ _ _ _ Hres)
         as (Henv & Hh & _ & Hcalls & _).
  all: unfold load_and_query, create_index_if_not_exists.
  all: unfold bind, as_client, raise; rewrite Hres; simpl.
  all: split_and!; [lia | done | eapply designate_weaken; [|exact Hd];
                                 by rewrite Hh |].
  all: exists []; rewrite app_nil_r; split; [done|];
       intros k1 k2 Hk; by apply elem_of_nil in Hk.
Qed.

End OneClient.

Lemma explicit_client_is_used_witness :
  served_by Mem.client0 Mem.indexed Mem.indexed
    (snd (create_index_if_not_exists "contracts_meta" (VDict [])
            (Some (Client Mem.client0)) Mem.indexed)) /\
  served_by Mem.client0 Mem.indexed Mem.indexed
    (snd (bulk_index_metadata "contracts_meta" [0; 1]
            (Some (Client Mem.client0)) Mem.indexed)) /\
  served_by Mem.client0 Mem.indexed Mem.indexed
    (snd (query_index "contracts_meta" Mem.phrase_query None
            (Some (Client Mem.client0)) Mem.indexed)).
Proof.
  apply (explicit_client_is_used Mem.client0 "contracts_meta" (VDict [])
           [0; 1] [Mem.doc1; Mem.doc2] Mem.phrase_query None Mem.indexed).
  repeat constructor.
Defined.

Lemma cached_client_is_reused_witness :
  served_by Mem.client0 Mem.indexed Mem.indexed
    (snd (create_index_if_not_exists "contracts_meta" (VDict []) None
            Mem.indexed)) /\
  served_by Mem.client0 Mem.indexed Mem.indexed
    (snd (bulk_index_metadata "contracts_meta" [0; 1] None Mem.indexed)) /\
  served_by Mem.client0 Mem.indexed Mem.indexed
    (snd (query_index "contracts_meta" Mem.phrase_query None None
            Mem.indexed)).
Proof.
  apply (cached_client_is_reused Mem.client0 None "contracts_meta" (VDict [])
           [0; 1] [Mem.doc1; Mem.doc2] Mem.phrase_query None Mem.indexed).
  - vm_compute. reflexivity.
  - reflexivity.
  - repeat constructor.
Defined.

Lemma load_and_query_one_client_witness :
  next_id (snd (load_and_query "contracts_meta" (VDict []) [0; 1]
                  Mem.phrase_query None None Mem.contracts))
    <= Datatypes.S (next_id Mem.contracts) /\
  environ (snd (load_and_query "contracts_meta" (VDict []) [0; 1]
                  Mem.phrase_query None None Mem.contracts))
    = environ Mem.contracts /\
  designate (snd (load_and_query "contracts_meta" (VDict []) [0; 1]
                    Mem.phrase_query None None Mem.contracts))
    [0; 1] [Mem.doc1; Mem.doc2] /\
  exists new,
    calls (snd (load_and_query "contracts_meta" (VDict []) [0; 1]
                  Mem.phrase_query None None Mem.contracts))
      = calls Mem.contracts ++ new /\
    forall k1 k2, k1 ∈ new -> k2 ∈ new -> call_client k1 = call_client k2.
Proof.
  apply (load_and_query_one_client "contracts_meta" (VDict []) [0; 1]
           [Mem.doc1; Mem.doc2] Mem.phrase_query None None Mem.contracts).
  repeat constructor.
Defined.

(** ** More on the query runner *)

Section QueryRunnerFurther.
Context {S : Type} {svc : Service S} {interp : Interpreter}.
Implicit Types (w : World S) (c : OpenSearch).

Lemma hit_sources_list resp v :
  hit_sources resp = Ok v -> exists sources, v = VList sources.
Proof.
  unfold hit_sources.
  destruct (py_get resp "hits" (VDict [])) as [outer|]; [|done].
  destruct (py_get outer "hits" (VList [])) as [hits|]; [|done].
  destruct (py_iter hits) as [items|]; [|done].
  destruct (comprehension _ items) as [sources|]; [|done].
  intros [= <-]. by exists sources.
Qed.

Lemma comprehension_non_dict hits :
  forallb is_dict hits = false ->
  comprehension (fun hit => py_get hit "_source" (VDict [])) hits
    = Raise AttributeError.
Proof.
  induction hits as [|hit hits IH]; simpl; [done|].
  destruct hit; simpl; try done. intros Hrest. by rewrite IH.
Qed.

(** X15.  The runner only reads: whatever its arguments and whatever the
    service answers, it prints nothing, leaves the store, the service and
    the environment as they are, and makes no call or exactly one, a
    search on the index it was given. *)
Theorem query_index_read_only index_name query_body size client w :
  stdout (snd (query_index index_name query_body size client w)) = stdout w /\
  heap (snd (query_index index_name query_body size client w)) = heap w /\
  cluster (snd (query_index index_name query_body size client w))
    = cluster w /\
  environ (snd (query_index index_name query_body size client w))
    = environ w /\
  (calls (snd (query_index index_name query_body size client w)) = calls w \/
   exists c body,
     calls (snd (query_index index_name query_body size client w)) =
       calls w ++ [Search c index_name body]).
Proof.
  destruct (client_or_default client w) as [[[v|c]|e] w1] eqn:Hres.
  2: { rewrite (query_index_run _ _ _ _ _ _ _ Hres).
       apply client_or_default_frame in Hres as (He & Hh & Ho & Hc & Hcl).
       simpl. rewrite He, Hh, Ho, Hc, Hcl.
       split_and!; try done. right. eauto. }
  all: unfold query_index, bind, as_client, raise; rewrite Hres; simpl.
  all: apply client_or_default_frame in Hres as (He & Hh & Ho & Hc & Hcl).
  all: rewrite He, Hh, Ho, Hc, Hcl.
  all: split_and!; try done; by left.
Qed.

(** X16.  Whatever the service answers, a result of the runner is a list:
    it is never [None], a dictionary or a string. *)
Theorem query_index_result_is_list index_name query_body size client w v :
  fst (query_index index_name query_body size client w) = Ok v ->
  exists sources, v = VList sources.
Proof.
  destruct (client_or_default client w) as [[[v0|c]|e] w1] eqn:Hres.
  2: { rewrite (query_index_run _ _ _ _ _ _ _ Hres). cbn zeta. simpl.
       destruct (svc_search _ _ _) as [resp|]; [|done].
       apply hit_sources_list. }
  all: unfold query_index, bind, as_client, raise; rewrite Hres; done.
Qed.

(** X17.  A response without the key ["hits"], or whose ["hits"] is a
    dictionary without the key ["hits"], gives the empty list. *)
Theorem hit_sources_missing_keys top :
  dict_get top "hits" = None \/
  (exists inner, dict_get top "hits" = Some (VDict inner) /\
                 dict_get inner "hits" = None) ->
  hit_sources (VDict top) = Ok (VList []).
Proof.
  unfold hit_sources. simpl. unfold dict_get_or.
  intros [-> | (inner & -> & Hinner)]; simpl; [done|].
  unfold dict_get_or. by rewrite Hinner.
Qed.

(** X18.  An exception of the search is passed on: a failing search, a
    missing index for one, is not turned into an empty list. *)
Theorem query_index_search_fails
    index_name query_body size client c w w1 e :
  let body :=
    VDict [("size", match size with Some n => n | None => VInt 10 end);
           ("query", query_body)] in
  client_or_default client w = (Ok (Client c), w1) ->
  svc_search index_name body (cluster w) = Raise e ->
  fst (query_index index_name query_body size client w) = Raise e /\
  calls (snd (query_index index_name query_body size client w)) =
    calls w ++ [Search c index_name body].
Proof.
  intros body Hres Hfail. rewrite (query_index_run _ _ _ _ _ _ _ Hres).
  apply client_or_default_frame in Hres as (_ & _ & _ & Hcalls & _).
  cbn zeta. fold body. rewrite Hfail. simpl. by rewrite Hcalls.
Qed.

(** X19.  A hit that is not a dictionary makes the extraction fail with
    an [AttributeError]; no partial list is returned. *)
Theorem hit_sources_non_dict_hit top inner hits :
  dict_get top "hits" = Some (VDict inner) ->
  dict_get inner "hits" = Some (VList hits) ->
  forallb is_dict hits = false ->
  hit_sources (VDict top) = Raise AttributeError.
Proof.
  intros Htop Hinner Hbad. unfold hit_sources. simpl. unfold dict_get_or.
  rewrite Htop. simpl. unfold dict_get_or. rewrite Hinner. simpl.
  by rewrite comprehension_non_dict.
Qed.

End QueryRunnerFurther.

Lemma query_index_result_is_list_witness :
  exists sources, VList [VDict Mem.doc1; VDict Mem.doc2] = VList sources.
Proof.
  apply (query_index_result_is_list "contracts_meta" Mem.phrase_query None
           None Mem.indexed).
  vm_compute. reflexivity.
Defined.

Lemma hit_sources_missing_keys_witness :
  hit_sources (VDict [("took", VInt 3); ("hits", VDict [("total", VInt 0)])])
    = Ok (VList []).
Proof.
  apply (hit_sources_missing_keys
           [("took", VInt 3); ("hits", VDict [("total", VInt 0)])]).
  right. exists [("total", VInt 0)]. split; reflexivity.
Defined.

Lemma query_index_search_fails_witness :
  fst (query_index "contracts_meta" Mem.phrase_query None None Mem.contracts)
    = Raise (LibraryError "index_not_found_exception") /\
  calls (snd (query_index "contracts_meta" Mem.phrase_query None None
                Mem.contracts)) =
    calls Mem.contracts ++
      [Search Mem.client0 "contracts_meta"
         (VDict [("size", VInt 10); ("query", Mem.phrase_query)])].
Proof.
  eapply (query_index_search_fails "contracts_meta" Mem.phrase_query None
            None Mem.client0 Mem.contracts);
    vm_compute; reflexivity.
Defined.

Lemma hit_sources_non_dict_hit_witness :
  hit_sources
    (VDict [("hits", VDict [("hits", VList [VDict []; VStr "C-001"])])])
    = Raise AttributeError.
Proof.
  apply (hit_sources_non_dict_hit
           [("hits", VDict [("hits", VList [VDict []; VStr "C-001"])])]
           [("hits", VList [VDict []; VStr "C-001"])]
           [VDict []; VStr "C-001"]);
    reflexivity.
Defined.

(** ** A true argument that is no client *)

Section WrongClient.
Context {S : Type} {svc : Service S} {interp : Interpreter}.
Implicit Types (w : World S).

(** X20.  A true value that is no client is not replaced by the client of
    the provider: the index manager and the query runner fail on it with an
    [AttributeError], before any call is made, and leave the process as it
    was. *)
Theorem non_client_argument_fails index_name mapping query_body size v w :
  truthy v = true ->
  create_index_if_not_exists index_name mapping (Some (Val v)) w
    = (Raise AttributeError, w) /\
  query_index index_name query_body size (Some (Val v)) w
    = (Raise AttributeError, w).
Proof.
  intros Ht.
  assert (Hres : client_or_default (Some (Val v)) w = (Ok (Val v), w))
    by (by rewrite client_or_default_truthy).
  unfold create_index_if_not_exists, query_index, bind, as_client, raise.
  by rewrite Hres.
Qed.

End WrongClient.

Lemma non_client_argument_fails_witness :
  create_index_if_not_exists "contracts_meta" (VDict [])
      (Some (Val (VStr "https://search.example.org"))) Mem.contracts
    = (Raise AttributeError, Mem.contracts) /\
  query_index "contracts_meta" Mem.phrase_query None
      (Some (Val (VStr "https://search.example.org"))) Mem.contracts
    = (Raise AttributeError, Mem.contracts).
Proof.
  apply (non_client_argument_fails "contracts_meta" (VDict [])
           Mem.phrase_query None (VStr "https://search.example.org")
           Mem.contracts).
  reflexivity.
Defined.
